(** * OCR-Service: the field-extraction pipeline of [LLMOCRService.parse_fields]

    A shallow embedding of the saved revisions of
    [app/services/llm_ocr_service.py]:

    - [Rev223536]: revision 20251212223536 (staged recovery, per-field
      coercion, all-null fallback);
    - [Rev020545]: revision 20251213020545, the latest one (single regex
      recovery, [vergi_no] clean-up and per-field fallback);
    - [Rev220541], [Rev222446], [Rev223926], [Rev225215]: the four other
      revisions, which share the recovery of the latest one and differ in
      what they do with the recovered value;
    - [Encoder]: the description of the declared fields that every
      revision puts into its prompt.

    [parse_fields] is a function of what the HTTP client does (it raises,
    or it returns a response), of the document text and of the declared
    fields.  Exceptions are values of [res]; the outer handler of the
    source turns every one of them into the wrapped error of [answer].

    Python text is modelled as a list of characters ([str]); the character
    classes below are the ASCII part of Python's Unicode classes, so the
    development speaks about ASCII text (bytes above 127 are carried along
    as characters that are neither digits, nor white space, nor word
    characters).  Python integers are unbounded ([Z]); the interpreter's
    optional cap on the digit count of [int(...)] and its recursion limit
    are not modelled.  [json.loads] and the regular expressions are
    embedded as the functions they denote, with the results Python's
    standard library gives. *)

From Stdlib Require Import List Ascii String ZArith NArith Lia Bool Arith.
Import ListNotations.

Local Open Scope string_scope.
Local Open Scope list_scope.

(** ** Python text *)

Definition str := list ascii.

Definition of_string (s : string) : str := list_ascii_of_string s.
Coercion of_string : string >-> str.
Arguments of_string : simpl never.

(** The double quote character, and a helper to write JSON text with
    single quotes standing for double quotes. *)
Definition dquote : ascii := "034"%char.
Definition squote : ascii := "039"%char.

Definition js (s : string) : str :=
  map (fun c => if Ascii.eqb c squote then dquote else c) (of_string s).

(** Lines of text joined by the newline character. *)
Fixpoint lines (l : list string) : str :=
  match l with
  | [] => []
  | [s] => of_string s
  | s :: l' => of_string s ++ "010"%char :: lines l'
  end.

Module Py.
Local Open Scope char_scope.
Local Open Scope list_scope.

Definition code (c : ascii) : N := N_of_ascii c.

(** [str.isspace] / [\s] on ASCII: TAB..CR, FS..US and SPACE. *)
Definition isspace (c : ascii) : bool :=
  let n := code c in
  ((9 <=? n) && (n <=? 13) || (28 <=? n) && (n <=? 32))%N.

(** [\d] on ASCII. *)
Definition isdigit (c : ascii) : bool :=
  let n := code c in ((48 <=? n) && (n <=? 57))%N.

(** [\w] on ASCII: letters, digits and the underscore. *)
Definition isword (c : ascii) : bool :=
  let n := code c in
  ((48 <=? n) && (n <=? 57) || (65 <=? n) && (n <=? 90)
   || (97 <=? n) && (n <=? 122) || (n =? 95))%N.

(** The white space [int(...)] skips around an ASCII literal. *)
Definition isspace_c (c : ascii) : bool :=
  let n := code c in ((9 <=? n) && (n <=? 13) || (n =? 32))%N.

Definition digit_val (c : ascii) : Z := Z.of_N (code c) - 48.

(** [s == t] on text. *)
Fixpoint eqb (s t : str) : bool :=
  match s, t with
  | [], [] => true
  | a :: s', b :: t' => Ascii.eqb a b && eqb s' t'
  | _, _ => false
  end.

(** [s.startswith(p)], returning the rest. *)
Fixpoint strip_prefix (p s : str) : option str :=
  match p, s with
  | [], _ => Some s
  | a :: p', b :: s' => if Ascii.eqb a b then strip_prefix p' s' else None
  | _ :: _, [] => None
  end.

Definition startswith (p s : str) : bool :=
  match strip_prefix p s with Some _ => true | None => false end.

(** [p in s] for text: substring test. *)
Fixpoint contains (p s : str) : bool :=
  startswith p s ||
  match s with
  | [] => false
  | _ :: s' => contains p s'
  end.

(** [s.lstrip()], [s.rstrip()], [s.strip()]. *)
Fixpoint lstrip (s : str) : str :=
  match s with
  | c :: s' => if isspace c then lstrip s' else s
  | [] => []
  end.

Definition rstrip (s : str) : str := rev (lstrip (rev s)).

Definition strip (s : str) : str := rstrip (lstrip s).

(** [s.lower()] on ASCII. *)
Definition lower_char (c : ascii) : ascii :=
  let n := code c in
  if ((65 <=? n) && (n <=? 90))%N then ascii_of_N (n + 32) else c.

Definition lower (s : str) : str := map lower_char s.

(** [s.replace(" ", "")]. *)
Definition remove_spaces (s : str) : str :=
  filter (fun c => negb (Ascii.eqb c " ")) s.

(** [s.find(c)] and [s.rfind(c)] for a one-character needle; [None] is
    Python's [-1]. *)
Fixpoint find (c : ascii) (s : str) : option nat :=
  match s with
  | [] => None
  | a :: s' =>
      if Ascii.eqb a c then Some O
      else match find c s' with Some i => Some (S i) | None => None end
  end.

Fixpoint rfind (c : ascii) (s : str) : option nat :=
  match s with
  | [] => None
  | a :: s' =>
      match rfind c s' with
      | Some i => Some (S i)
      | None => if Ascii.eqb a c then Some O else None
      end
  end.

(** [s[i:j]] for [0 <= i], [0 <= j]. *)
Definition slice (i j : nat) (s : str) : str := firstn (j - i) (skipn i s).

(** The value of a run of decimal digits, most significant first. *)
Fixpoint digits_value (acc : Z) (s : str) : Z :=
  match s with
  | [] => acc
  | c :: s' => digits_value (10 * acc + digit_val c) s'
  end.

(** The digit part of an [int] literal: digits, with single underscores
    allowed between digits.  [prev_digit] tells whether the previous
    character was a digit; the result is the digits without underscores. *)
Fixpoint int_body (prev_digit : bool) (s : str) : option (str * str) :=
  match s with
  | c :: s' =>
      if isdigit c then
        match int_body true s' with
        | Some (ds, r) => Some (c :: ds, r)
        | None => None
        end
      else if Ascii.eqb c "_" then
        if prev_digit then
          match s' with
          | d :: _ => if isdigit d then int_body false s' else None
          | [] => None
          end
        else None
      else if prev_digit then Some ([], s) else None
  | [] => if prev_digit then Some ([], []) else None
  end.

Fixpoint skip_space_c (s : str) : str :=
  match s with
  | c :: s' => if isspace_c c then skip_space_c s' else s
  | [] => []
  end.

(** [int(s)] for text [s], base ten: optional surrounding white space, an
    optional sign, digits with optional single underscores between them.
    [None] is [ValueError]. *)
Definition int (s : str) : option Z :=
  let s1 := skip_space_c s in
  let '(neg, s2) :=
    match s1 with
    | "-" :: t => (true, t)
    | "+" :: t => (false, t)
    | _ => (false, s1)
    end in
  match s2 with
  | c :: _ =>
      if isdigit c then
        match int_body false s2 with
        | Some (ds, r) =>
            match skip_space_c r with
            | [] => let v := digits_value 0 ds in
                    Some (if neg then (- v)%Z else v)
            | _ :: _ => None
            end
        | None => None
        end
      else None
  | [] => None
  end.

End Py.

(** ** The regular expressions the service uses

    Each pattern of the source is embedded as the matcher it denotes under
    Python's [re] semantics (leftmost match, greedy quantifiers with
    backtracking). *)

Module Re.
Local Open Scope char_scope.
Local Open Scope list_scope.

(** [re.sub(r"\D", "", s)]. *)
Definition sub_nondigit (s : str) : str := filter Py.isdigit s.

(** [re.sub(r"\s+", "", s)]. *)
Definition sub_spaces (s : str) : str :=
  filter (fun c => negb (Py.isspace c)) s.

(** Does [s] start with [n] digits? *)
Fixpoint starts_with_digits (n : nat) (s : str) : bool :=
  match n with
  | O => true
  | S n' =>
      match s with
      | c :: s' => Py.isdigit c && starts_with_digits n' s'
      | [] => false
      end
  end.

(** [re.findall(r"\d{11}", s)]: the non-overlapping matches from the left.
    [skip] counts the characters of the current match still to step over. *)
Fixpoint findall_d11_from (skip : nat) (s : str) : list str :=
  match s with
  | [] => []
  | _ :: s' =>
      match skip with
      | S k => findall_d11_from k s'
      | O =>
          if starts_with_digits 11 s
          then firstn 11 s :: findall_d11_from 10 s'
          else findall_d11_from 0 s'
      end
  end.

Definition findall_d11 (s : str) : list str := findall_d11_from 0 s.

(** The longest prefix of [s] that ends with ["}"], if any: what a greedy
    [.*] followed by ["}"] settles on after backtracking. *)
Fixpoint upto_last_close (s : str) : option str :=
  match s with
  | [] => None
  | c :: s' =>
      match upto_last_close s' with
      | Some p => Some (c :: p)
      | None => if Ascii.eqb c "}" then Some [c] else None
      end
  end.

(** [re.search(r"\{.*\}", s, re.DOTALL)] and [re.search(r"\{[\s\S]*\}", s)]:
    the matched text.  Both patterns let the middle part match any
    character, so they denote the same matcher. *)
Fixpoint search_braces (s : str) : option str :=
  match s with
  | [] => None
  | c :: s' =>
      if Ascii.eqb c "{" then
        match upto_last_close s' with
        | Some p => Some (c :: p)
        | None => search_braces s'
        end
      else search_braces s'
  end.

Definition isword_opt (c : option ascii) : bool :=
  match c with Some a => Py.isword a | None => false end.

(** [\b] between two neighbouring positions. *)
Definition boundary (prev next : option ascii) : bool :=
  xorb (isword_opt prev) (isword_opt next).

Definition in_run (c : ascii) : bool := Py.isdigit c || Py.isspace c.

(** For [[\d\s]{9,}] followed by [\b]: [k] characters of the run have been
    taken, [prev] is the last character taken, [t] is what follows.  The
    result is the largest count at which the pattern can end. *)
Fixpoint longest_end (prev : ascii) (k : nat) (t : str) (best : option nat)
  : option nat :=
  let best' :=
    if (9 <=? k)%nat && boundary (Some prev) (hd_error t)
    then Some k else best in
  match t with
  | c :: t' => if in_run c then longest_end c (S k) t' best' else best'
  | [] => best'
  end.

(** The pattern tried at one position: [prev] is the character before [c]. *)
Definition match_vergi_here (prev : option ascii) (c : ascii) (t : str)
  : option str :=
  if boundary prev (Some c) && Py.isdigit c then
    match longest_end c 0 t None with
    | Some k => Some (c :: firstn k t)
    | None => None
    end
  else None.

Fixpoint search_vergi_from (prev : option ascii) (s : str) : option str :=
  match s with
  | [] => None
  | c :: t =>
      match match_vergi_here prev c t with
      | Some g => Some g
      | None => search_vergi_from (Some c) t
      end
  end.

(** [re.search(r"\b(\d[\d\s]{9,})\b", s)]: group 1 of the match. *)
Definition search_vergi (s : str) : option str := search_vergi_from None s.

End Re.

(** ** Python dictionaries: insertion-ordered, keys unique *)

Module Dict.
Section WithValue.
Context {V : Type}.

Fixpoint get (k : str) (d : list (str * V)) : option V :=
  match d with
  | [] => None
  | (k', v) :: d' => if Py.eqb k k' then Some v else get k d'
  end.

Definition has (k : str) (d : list (str * V)) : bool :=
  match get k d with Some _ => true | None => false end.

(** [d[k] = v]: replace in place, or append. *)
Fixpoint set (k : str) (v : V) (d : list (str * V)) : list (str * V) :=
  match d with
  | [] => [(k, v)]
  | (k', v') :: d' =>
      if Py.eqb k k' then (k', v) :: d' else (k', v') :: set k v d'
  end.

Definition keys (d : list (str * V)) : list str := map fst d.
Definition values (d : list (str * V)) : list V := map snd d.

(** [d.get(k, default)]. *)
Definition get_default (k : str) (default : V) (d : list (str * V)) : V :=
  match get k d with Some v => v | None => default end.
End WithValue.
End Dict.

(** ** JSON values and [json.loads] *)

(** A float parsed from a decimal literal is kept as that literal's exact
    decimal value [(-1)^neg * mant * 10^exp10]; the float itself is its
    correctly rounded binary64 neighbour. *)
Inductive pyfloat :=
| FDec (neg : bool) (mant : N) (exp10 : Z)
| FNaN
| FInf (neg : bool).

#[warnings="-register-all"]
Inductive json :=
| JNull
| JBool (b : bool)
| JInt (n : Z)
| JFloat (f : pyfloat)
| JStr (s : str)
| JList (l : list json)
| JDict (d : list (str * json)).

Definition dict := list (str * json).

(** [f == 0.0] for the float nearest to a decimal: the decimal is zero, or it
    is at most [2^-1075], half the least positive binary64 (a tie rounds to
    the even neighbour, zero). *)
Definition float_is_zero (f : pyfloat) : bool :=
  match f with
  | FDec _ mant e =>
      (mant =? 0)%N ||
      ((e <? 0)%Z && (Z.of_N mant * 2 ^ 1075 <=? 10 ^ (- e))%Z)
  | FNaN => false
  | FInf _ => false
  end.

(** [bool(v)]. *)
Definition truthy (v : json) : bool :=
  match v with
  | JNull => false
  | JBool b => b
  | JInt n => negb (n =? 0)%Z
  | JFloat f => negb (float_is_zero f)
  | JStr s => match s with [] => false | _ => true end
  | JList l => match l with [] => false | _ => true end
  | JDict d => match d with [] => false | _ => true end
  end.

Inductive outcome (A : Type) :=
| Done (a : A)
| Fail
| OutOfFuel.
Arguments Done {A} a.
Arguments Fail {A}.
Arguments OutOfFuel {A}.

Module Json.
Local Open Scope char_scope.
Local Open Scope list_scope.

(** JSON white space: [ \t\n\r]. *)
Definition isws (c : ascii) : bool :=
  Ascii.eqb c " " || Ascii.eqb c "009" || Ascii.eqb c "010"
  || Ascii.eqb c "013".

Fixpoint skip_ws (s : str) : str :=
  match s with
  | c :: s' => if isws c then skip_ws s' else s
  | [] => []
  end.

Definition hex_val (c : ascii) : option N :=
  let n := Py.code c in
  if ((48 <=? n) && (n <=? 57))%N then Some (n - 48)%N
  else if ((65 <=? n) && (n <=? 70))%N then Some (n - 55)%N
  else if ((97 <=? n) && (n <=? 102))%N then Some (n - 87)%N
  else None.

(** [chr(u)] as UTF-8 text. *)
Definition chr (u : N) : str :=
  let b (n : N) := ascii_of_N n in
  (if u <? 128 then [b u]
   else if u <? 2048 then
     [b (192 + u / 64); b (128 + u mod 64)]
   else if u <? 65536 then
     [b (224 + u / 4096); b (128 + (u / 64) mod 64); b (128 + u mod 64)]
   else
     [b (240 + u / 262144); b (128 + (u / 4096) mod 64);
      b (128 + (u / 64) mod 64); b (128 + u mod 64)])%N.

Definition is_high (u : N) : bool := ((55296 <=? u) && (u <=? 56319))%N.
Definition is_low (u : N) : bool := ((56320 <=? u) && (u <=? 57343))%N.

(** The scanner's position inside a string literal. [pending] is a high
    surrogate read from a [\u] escape and not yet written out. *)
Inductive sstate :=
| SNormal
| SEsc
| SHex (k : nat) (acc : N).

(** Writes out [pending], if any. *)
Definition flush (pending : option N) (out : str) : str :=
  match pending with
  | Some h => rev (chr h) ++ out
  | None => out
  end.

(** A finished [\uXXXX] escape with value [u]. *)
Definition emit_unit (pending : option N) (u : N) (out : str)
  : option N * str :=
  match pending with
  | Some h =>
      if is_low u then
        (None, rev (chr (65536 + (h - 55296) * 1024 + (u - 56320))) ++ out)
      else if is_high u then (Some u, rev (chr h) ++ out)
      else (None, rev (chr u) ++ rev (chr h) ++ out)
  | None =>
      if is_high u then (Some u, out) else (None, rev (chr u) ++ out)
  end.

Definition unescape (e : ascii) : option ascii :=
  if Ascii.eqb e dquote then Some dquote
  else if Ascii.eqb e "\" then Some "\"
  else if Ascii.eqb e "/" then Some "/"
  else if Ascii.eqb e "b" then Some "008"
  else if Ascii.eqb e "f" then Some "012"
  else if Ascii.eqb e "n" then Some "010"
  else if Ascii.eqb e "r" then Some "013"
  else if Ascii.eqb e "t" then Some "009"
  else None.

(** [scanstring] (strict): the text after the opening quote is read up to
    the closing quote; [out] is the content so far, reversed.  [None] is a
    decoding error. *)
Fixpoint scan_chars (st : sstate) (pending : option N) (out : str) (s : str)
  : option (str * str) :=
  match s with
  | [] => None
  | c :: s' =>
      match st with
      | SNormal =>
          if Ascii.eqb c dquote then Some (rev (flush pending out), s')
          else if Ascii.eqb c "\" then scan_chars SEsc pending out s'
          else if (Py.code c <? 32)%N then None
          else scan_chars SNormal None (c :: flush pending out) s'
      | SEsc =>
          if Ascii.eqb c "u" then scan_chars (SHex 0 0) pending out s'
          else
            match unescape c with
            | Some a => scan_chars SNormal None (a :: flush pending out) s'
            | None => None
            end
      | SHex k acc =>
          match hex_val c with
          | Some h =>
              let acc' := (acc * 16 + h)%N in
              match k with
              | 3%nat =>
                  let '(pending', out') := emit_unit pending acc' out in
                  scan_chars SNormal pending' out' s'
              | _ => scan_chars (SHex (S k) acc') pending out s'
              end
          | None => None
          end
      end
  end.

Definition scanstring (s : str) : option (str * str) :=
  scan_chars SNormal None [] s.

(** The longest run of digits at the head of [s], and the rest. *)
Fixpoint span_digits (s : str) : str * str :=
  match s with
  | c :: s' =>
      if Py.isdigit c then
        let '(ds, r) := span_digits s' in (c :: ds, r)
      else ([], s)
  | [] => ([], [])
  end.

(** Group 1 of [NUMBER_RE]: an optional minus sign, then either a single
    zero or a non-zero digit followed by digits. *)
Definition scan_int_part (s : str) : option (bool * str * str) :=
  let '(neg, s1) :=
    match s with
    | c :: t => if Ascii.eqb c "-" then (true, t) else (false, s)
    | [] => (false, s)
    end in
  match s1 with
  | c :: t =>
      if Ascii.eqb c "0" then Some (neg, [c], t)
      else if Py.isdigit c then
        let '(ds, r) := span_digits t in Some (neg, c :: ds, r)
      else None
  | [] => None
  end.

(** Group 2: optionally, a dot followed by at least one digit. *)
Definition scan_frac (s : str) : option str * str :=
  match s with
  | c :: t =>
      if Ascii.eqb c "." then
        match span_digits t with
        | ([], _) => (None, s)
        | (ds, r) => (Some ds, r)
        end
      else (None, s)
  | [] => (None, s)
  end.

(** Group 3: optionally, [e] or [E], an optional sign and at least one
    digit; returned as the exponent's value. *)
Definition scan_sign (s : str) : bool * str :=
  match s with
  | c :: u =>
      if Ascii.eqb c "-" then (true, u)
      else if Ascii.eqb c "+" then (false, u)
      else (false, s)
  | [] => (false, s)
  end.

Definition scan_exp (s : str) : option Z * str :=
  match s with
  | c :: t =>
      if Ascii.eqb c "e" || Ascii.eqb c "E" then
        let '(neg, t1) := scan_sign t in
        match span_digits t1 with
        | ([], _) => (None, s)
        | (ds, r) =>
            let v := Py.digits_value 0 ds in
            (Some (if neg then (- v)%Z else v), r)
        end
      else (None, s)
  | [] => (None, s)
  end.

(** A number at the head of [s]: an [int] when there is neither a fraction
    nor an exponent, a [float] otherwise. *)
Definition scan_number (s : str) : option (json * str) :=
  match scan_int_part s with
  | None => None
  | Some (neg, ip, r1) =>
      let '(frac, r2) := scan_frac r1 in
      let '(ex, r3) := scan_exp r2 in
      match frac, ex with
      | None, None =>
          let v := Py.digits_value 0 ip in
          Some (JInt (if neg then (- v)%Z else v), r3)
      | _, _ =>
          let fd := match frac with Some ds => ds | None => [] end in
          let e := match ex with Some z => z | None => 0%Z end in
          Some (JFloat (FDec neg (Z.to_N (Py.digits_value 0 (ip ++ fd)))
                             (e - Z.of_nat (List.length fd))), r3)
      end
  end.

(** The literals the scanner knows, tried in the decoder's order around
    the number pattern. *)
Definition scan_keyword (s : str) : option (json * str) :=
  match Py.strip_prefix (of_string "null") s with
  | Some r => Some (JNull, r)
  | None =>
  match Py.strip_prefix (of_string "true") s with
  | Some r => Some (JBool true, r)
  | None =>
  match Py.strip_prefix (of_string "false") s with
  | Some r => Some (JBool false, r)
  | None => None
  end end end.

Definition scan_constant (s : str) : option (json * str) :=
  match Py.strip_prefix (of_string "NaN") s with
  | Some r => Some (JFloat FNaN, r)
  | None =>
  match Py.strip_prefix (of_string "Infinity") s with
  | Some r => Some (JFloat (FInf false), r)
  | None =>
  match Py.strip_prefix (of_string "-Infinity") s with
  | Some r => Some (JFloat (FInf true), r)
  | None => None
  end end end.

Definition scan_atom (s : str) : outcome (json * str) :=
  match scan_keyword s with
  | Some x => Done x
  | None =>
  match scan_number s with
  | Some x => Done x
  | None =>
  match scan_constant s with
  | Some x => Done x
  | None => Fail
  end end end.

Section Containers.
(** [scan_once] of the enclosing decoder. *)
Variable scan : str -> outcome (json * str).

(** The loop of [JSONObject]; [s] starts after the opening quote of a
    key, [acc] holds the pairs read so far (a later pair replaces an
    earlier one with the same key, as [dict(pairs)] does). *)
Fixpoint object_members (n : nat) (acc : dict) (s : str)
  : outcome (json * str) :=
  match n with
  | O => OutOfFuel
  | S n' =>
      match scanstring s with
      | None => Fail
      | Some (key, r1) =>
          match skip_ws r1 with
          | colon :: r2 =>
              if Ascii.eqb colon ":" then
                match scan (skip_ws r2) with
                | Done (v, r3) =>
                    let acc' := Dict.set key v acc in
                    match skip_ws r3 with
                    | c :: r4 =>
                        if Ascii.eqb c "}" then Done (JDict acc', r4)
                        else if Ascii.eqb c "," then
                          match skip_ws r4 with
                          | q :: r5 =>
                              if Ascii.eqb q dquote
                              then object_members n' acc' r5
                              else Fail
                          | [] => Fail
                          end
                        else Fail
                    | [] => Fail
                    end
                | Fail => Fail
                | OutOfFuel => OutOfFuel
                end
              else Fail
          | [] => Fail
          end
      end
  end.

(** [JSONObject]; [s] starts after the opening brace. *)
Definition JSONObject (n : nat) (s : str) : outcome (json * str) :=
  match skip_ws s with
  | c :: r =>
      if Ascii.eqb c "}" then Done (JDict [], r)
      else if Ascii.eqb c dquote then object_members n [] r
      else Fail
  | [] => Fail
  end.

(** The loop of [JSONArray]; [s] starts at a value, [acc] holds the
    values read so far, reversed. *)
Fixpoint array_elements (n : nat) (acc : list json) (s : str)
  : outcome (json * str) :=
  match n with
  | O => OutOfFuel
  | S n' =>
      match scan s with
      | Done (v, r1) =>
          match skip_ws r1 with
          | c :: r2 =>
              if Ascii.eqb c "]" then Done (JList (rev (v :: acc)), r2)
              else if Ascii.eqb c ","
              then array_elements n' (v :: acc) (skip_ws r2)
              else Fail
          | [] => Fail
          end
      | Fail => Fail
      | OutOfFuel => OutOfFuel
      end
  end.

(** [JSONArray]; [s] starts after the opening bracket. *)
Definition JSONArray (n : nat) (s : str) : outcome (json * str) :=
  match skip_ws s with
  | c :: r =>
      if Ascii.eqb c "]" then Done (JList [], r)
      else array_elements n [] (c :: r)
  | [] => array_elements n [] []
  end.
End Containers.

(** [scan_once]: one JSON value at the head of [s]. *)
Fixpoint scan_once (fuel : nat) (s : str) : outcome (json * str) :=
  match fuel with
  | O => OutOfFuel
  | S f =>
      match s with
      | [] => Fail
      | c :: t =>
          if Ascii.eqb c dquote then
            match scanstring t with
            | Some (x, r) => Done (JStr x, r)
            | None => Fail
            end
          else if Ascii.eqb c "{" then JSONObject (scan_once f) f t
          else if Ascii.eqb c "[" then JSONArray (scan_once f) f t
          else scan_atom s
      end
  end.

(** [JSONDecoder.decode]: white space, one value, white space, end. *)
Definition decode (s : str) : outcome json :=
  let s0 := skip_ws s in
  match scan_once (S (List.length s0)) s0 with
  | Done (v, r) =>
      match skip_ws r with
      | [] => Done v
      | _ :: _ => Fail
      end
  | Fail => Fail
  | OutOfFuel => OutOfFuel
  end.

(** [json.loads(s)] for text [s]; [None] is [JSONDecodeError]. *)
Definition loads (s : str) : option json :=
  match decode s with
  | Done v => Some v
  | _ => None
  end.

End Json.

(** ** Exceptions, and the operations the service applies to decoded values *)

Inductive exn :=
| HTTPError (cause : str)
| JSONDecodeError
| TypeError
| ValueError
| KeyError
| IndexError
| AttributeError.

Inductive res (A : Type) :=
| Ok (a : A)
| Raise (e : exn).
Arguments Ok {A} a.
Arguments Raise {A} e.

Definition bind {A B : Type} (m : res A) (k : A -> res B) : res B :=
  match m with
  | Ok a => k a
  | Raise e => Raise e
  end.

Notation "x <- m ;; k" := (bind m (fun x => k))
  (at level 61, m at next level, right associativity).

(** What [parse_fields] hands to its caller: the returned mapping, or the
    exception built by the outer handler,
    [Exception(f"Ollama API error: {str(e)}")], with the exception [e] it
    wraps. *)
Inductive answer (A : Type) :=
| Return (a : A)
| OllamaAPIError (cause : exn).
Arguments Return {A} a.
Arguments OllamaAPIError {A} cause.

(** [try: ... except Exception as e: raise Exception(...)]. *)
Definition wrap {A : Type} (m : res A) : answer A :=
  match m with
  | Ok a => Return a
  | Raise e => OllamaAPIError e
  end.

(** What [await client.post(...)] does: it raises (transport failure,
    timeout), or it returns a response with a status code and a body.  The
    prompt only influences what the endpoint answers. *)
Inductive http_result :=
| HttpRaised (cause : str)
| HttpResponse (status : nat) (body : str).

Definition post (h : http_result) : res (nat * str) :=
  match h with
  | HttpRaised cause => Raise (HTTPError cause)
  | HttpResponse status body => Ok (status, body)
  end.

(** [response.json()]. *)
Definition response_json (response : nat * str) : res json :=
  match Json.loads (snd response) with
  | Some v => Ok v
  | None => Raise JSONDecodeError
  end.

(** The caller's field declarations, [Dict[str, Dict[str, str]]]. *)
Definition fields_t := list (str * list (str * str)).

Module Obj.

(** [k in x] for a text key [k]. *)
Definition contains (k : str) (x : json) : res bool :=
  match x with
  | JDict d => Ok (Dict.has k d)
  | JList l =>
      Ok (existsb (fun v => match v with JStr s => Py.eqb s k | _ => false end) l)
  | JStr s => Ok (Py.contains k s)
  | _ => Raise TypeError
  end.

(** [x[k]] for a text key [k]. *)
Definition getitem (x : json) (k : str) : res json :=
  match x with
  | JDict d =>
      match Dict.get k d with
      | Some v => Ok v
      | None => Raise KeyError
      end
  | _ => Raise TypeError
  end.

(** [x[0]]. *)
Definition first (x : json) : res json :=
  match x with
  | JList (v :: _) => Ok v
  | JList [] => Raise IndexError
  | JStr (c :: _) => Ok (JStr [c])
  | JStr [] => Raise IndexError
  | JDict _ => Raise KeyError
  | _ => Raise TypeError
  end.

(** [len(x)]. *)
Definition len (x : json) : res nat :=
  match x with
  | JDict d => Ok (List.length d)
  | JList l => Ok (List.length l)
  | JStr s => Ok (List.length s)
  | _ => Raise TypeError
  end.

(** [x.get(k, default)]. *)
Definition get (x : json) (k : str) (default : json) : res json :=
  match x with
  | JDict d => Ok (Dict.get_default k default d)
  | _ => Raise AttributeError
  end.

(** [x[k] = v] for a text key [k]; the updated object. *)
Definition setitem (x : json) (k : str) (v : json) : res json :=
  match x with
  | JDict d => Ok (JDict (Dict.set k v d))
  | _ => Raise TypeError
  end.

(** [isinstance(x, int)]; [bool] is a subclass of [int]. *)
Definition is_int (x : json) : bool :=
  match x with
  | JInt _ => true
  | JBool _ => true
  | _ => false
  end.

Definition is_none (x : json) : bool :=
  match x with
  | JNull => true
  | _ => false
  end.

(** [int(str(x).replace(" ", "").strip())]; [None] is [ValueError].  The
    text of an [int] is its decimal numeral; the text of a [bool], a
    [float], [None], a list or a dict is never an [int] literal. *)
Definition clean_int (x : json) : option Z :=
  match x with
  | JStr s => Py.int (Py.strip (Py.remove_spaces s))
  | JInt n => Some n
  | _ => None
  end.

End Obj.

(** ** Revision 20251213020545 (the latest) *)

Module Rev020545.

(** Lines 56-61: the reply text inside the response envelope. *)
Definition extract_reply (env : json) : res json :=
  has_response <- Obj.contains "response" env ;;
  if has_response then Obj.getitem env "response"
  else
    has_data <- Obj.contains "data" env ;;
    nonempty <-
      (if has_data then
         data <- Obj.getitem env "data" ;;
         n <- Obj.len data ;;
         Ok (0 <? n)%nat
       else Ok false) ;;
    if nonempty then
      data <- Obj.getitem env "data" ;;
      item <- Obj.first data ;;
      Obj.get item "response" (JStr [])
    else Ok (JStr []).

(** Lines 63-74: direct parse, then the widest brace-delimited block. *)
Definition recover_text (result_text : str) : json :=
  match Json.loads result_text with
  | Some v => v
  | None =>
      match Re.search_braces result_text with
      | Some block =>
          match Json.loads block with
          | Some v => v
          | None => JDict []
          end
      | None => JDict []
      end
  end.

(** [json.loads] and [re.search] both raise [TypeError] on a reply that is
    not text; the inner handler catches the first only. *)
Definition recover (result_text : json) : res json :=
  match result_text with
  | JStr t => Ok (recover_text t)
  | _ => Raise TypeError
  end.

(** Lines 85-90: the regex fallback on the document text. *)
Definition fallback_value (raw_text : str) : res json :=
  match Re.search_vergi raw_text with
  | Some g =>
      match Py.int (Py.remove_spaces g) with
      | Some n => Ok (JInt n)
      | None => Raise ValueError
      end
  | None => Ok JNull
  end.

(** The test of line 77. *)
Definition has_vergi_no (result : json) : res bool :=
  present <- Obj.contains "vergi_no" result ;;
  if present then
    v <- Obj.getitem result "vergi_no" ;;
    Ok (truthy v)
  else Ok false.

(** Lines 76-92. *)
Definition clean_vergi_no (raw_text : str) (result : json) : res json :=
  cond <- has_vergi_no result ;;
  if cond then
    v <- Obj.getitem result "vergi_no" ;;
    match Obj.clean_int v with
    | Some n => Obj.setitem result "vergi_no" (JInt n)
    | None => Obj.setitem result "vergi_no" JNull
    end
  else
    v <- fallback_value raw_text ;;
    Obj.setitem result "vergi_no" v.

(** What happens to the reply text once it is out of the envelope. *)
Definition process_reply (raw_text : str) (result_text : json) : res json :=
  result <- recover result_text ;;
  clean_vergi_no raw_text result.

Definition parse_fields (http : http_result) (raw_text : str)
  (fields : fields_t) : answer json :=
  wrap (
    response <- post http ;;
    env <- response_json response ;;
    result_text <- extract_reply env ;;
    process_reply raw_text result_text).

End Rev020545.

(** ** Revision 20251212223536 *)

Module Rev223536.

(** Lines 59-61. *)
Definition extract_reply (env : json) : res json :=
  result_text <- Obj.get env "response" (JStr []) ;;
  match result_text with
  | JNull => Ok (JStr [])
  | _ => Ok result_text
  end.

(** Line 63: [result_text.strip()]. *)
Definition strip_reply (result_text : json) : res str :=
  match result_text with
  | JStr t => Ok (Py.strip t)
  | _ => Raise AttributeError
  end.

(** Lines 72-75: the text from the first ["{"] to the last ["}"]. *)
Definition brace_candidate (result_text : str) : option str :=
  match Py.find "{"%char result_text, Py.rfind "}"%char result_text with
  | Some first, Some last =>
      if (first <? last)%nat
      then Some (Py.slice first (last + 1) result_text)
      else None
  | _, _ => None
  end.

(** Lines 80-87: the looser pattern, tried when the candidate fails. *)
Definition stage3 (result_text : str) : json :=
  match Re.search_braces result_text with
  | Some block =>
      match Json.loads block with
      | Some v => v
      | None => JDict []
      end
  | None => JDict []
  end.

(** Lines 72-89: what the handler of the direct parse does. *)
Definition stage2 (result_text : str) : json :=
  match brace_candidate result_text with
  | Some candidate =>
      match Json.loads candidate with
      | Some v => v
      | None => stage3 result_text
      end
  | None => JDict []
  end.

(** Lines 66-91. *)
Definition recover (result_text : str) : json :=
  match result_text with
  | [] => JDict []
  | _ :: _ =>
      match Json.loads result_text with
      | Some v => v
      | None => stage2 result_text
      end
  end.

Definition expected_integer (expected : list (str * str)) : bool :=
  Py.eqb (Py.lower (Dict.get_default "type" (of_string "") expected))
         "integer".

(** Lines 99-123, for one field. *)
Definition coerce_value (expected : list (str * str)) (raw_value : json)
  : res json :=
  match raw_value with
  | JNull => Ok JNull
  | _ =>
      if expected_integer expected then
        if Obj.is_int raw_value then Ok raw_value
        else
          match raw_value with
          | JStr t =>
              let s := Py.strip t in
              let digits := Re.sub_nondigit s in
              match digits with
              | [] => Ok JNull
              | _ :: _ =>
                  match Py.int digits with
                  | Some n => Ok (JInt n)
                  | None => Raise ValueError
                  end
              end
          | _ => Ok JNull
          end
      else
        match raw_value with
        | JStr t => Ok (JStr (Py.strip t))
        | _ => Ok raw_value
        end
  end.

(** Line 97. *)
Definition raw_value_of (result : json) (key : str) : json :=
  match result with
  | JDict d => Dict.get_default key JNull d
  | _ => JNull
  end.

(** Lines 94-123: the loop over the declared fields. *)
Fixpoint coerce_fields (result : json) (fields : fields_t) (processed : dict)
  : res dict :=
  match fields with
  | [] => Ok processed
  | (key, expected) :: rest =>
      v <- coerce_value expected (raw_value_of result key) ;;
      coerce_fields result rest (Dict.set key v processed)
  end.

(** Line 127. *)
Definition all_none (processed : dict) : bool :=
  forallb Obj.is_none (Dict.values processed).

(** Lines 135-136. *)
Definition is_tax_field (conf : list (str * str)) : bool :=
  let name := Py.lower (Dict.get_default "name" (of_string "") conf) in
  Py.contains "vergi" name || Py.contains "tax" name.

(** Lines 138-141. *)
Definition tax_value (m : str) : json :=
  match Py.int m with
  | Some n => JInt n
  | None => JStr m
  end.

(** Lines 134-141: the loop that fills the matching fields. *)
Fixpoint fill_tax (m : str) (fields : fields_t) (processed : dict) : dict :=
  match fields with
  | [] => processed
  | (key, conf) :: rest =>
      fill_tax m rest
        (if is_tax_field conf then Dict.set key (tax_value m) processed
         else processed)
  end.

(** Lines 130-141. *)
Definition fallback (raw_text : str) (fields : fields_t) (processed : dict)
  : dict :=
  let compact := Re.sub_spaces raw_text in
  match Re.findall_d11 compact with
  | m :: _ => fill_tax m fields processed
  | [] => processed
  end.

(** Lines 127-142. *)
Definition finish (raw_text : str) (fields : fields_t) (processed : dict)
  : dict :=
  if all_none processed then fallback raw_text fields processed
  else processed.

(** Lines 65-142, on the stripped reply text. *)
Definition process_text (raw_text : str) (fields : fields_t)
  (result_text : str) : res dict :=
  processed <- coerce_fields (recover result_text) fields [] ;;
  Ok (finish raw_text fields processed).

(** What happens to the reply once it is out of the envelope. *)
Definition process_reply (raw_text : str) (fields : fields_t)
  (result_text : json) : res dict :=
  stripped <- strip_reply result_text ;;
  process_text raw_text fields stripped.

Definition parse_fields (http : http_result) (raw_text : str)
  (fields : fields_t) : answer dict :=
  wrap (
    response <- post http ;;
    env <- response_json response ;;
    result_text <- extract_reply env ;;
    process_reply raw_text fields result_text).

End Rev223536.

(** ** Revision 20251212220541 (the first) *)

Module Rev220541.

(** Line 58. *)
Definition extract_reply (env : json) : res json :=
  Obj.get env "response" (JStr "{}").

(** Lines 61-72: the same recovery as in the latest revision.  A reply
    that is not text makes [json.loads] raise [TypeError], which the
    handler for [JSONDecodeError] does not catch. *)
Definition recover (result_text : json) : res json :=
  match result_text with
  | JStr t => Ok (Rev020545.recover_text t)
  | _ => Raise TypeError
  end.

Definition parse_fields (http : http_result) (raw_text : str)
  (fields : fields_t) : answer json :=
  wrap (
    response <- post http ;;
    env <- response_json response ;;
    result_text <- extract_reply env ;;
    recover result_text).

End Rev220541.

(** ** Revision 20251212222446 *)

Module Rev222446.

(** Lines 57-62: the same text as lines 56-61 of the latest revision. *)
Definition extract_reply (env : json) : res json :=
  Rev020545.extract_reply env.

(** Lines 77-82: the mapping built from the document text alone; the
    digits are kept as text. *)
Definition fallback (raw_text : str) : dict :=
  match Re.search_vergi raw_text with
  | Some g => Dict.set "vergi_no" (JStr (Py.remove_spaces g)) []
  | None => Dict.set "vergi_no" JNull []
  end.

(** Lines 65-84.  The bare [except] catches whatever [json.loads] raises;
    [re.search] then raises [TypeError] on a reply that is not text. *)
Definition process_reply (raw_text : str) (result_text : json) : res json :=
  match result_text with
  | JStr t =>
      match Json.loads t with
      | Some v => Ok v
      | None =>
          match Re.search_braces t with
          | Some block =>
              match Json.loads block with
              | Some v => Ok v
              | None => Ok (JDict (fallback raw_text))
              end
          | None => Ok (JDict (fallback raw_text))
          end
      end
  | _ => Raise TypeError
  end.

Definition parse_fields (http : http_result) (raw_text : str)
  (fields : fields_t) : answer json :=
  wrap (
    response <- post http ;;
    env <- response_json response ;;
    result_text <- extract_reply env ;;
    process_reply raw_text result_text).

End Rev222446.

(** ** Revision 20251212223926 *)

Module Rev223926.

(** Line 53. *)
Definition extract_reply (env : json) : res json :=
  Obj.get env "response" (JStr "{}").

(** Lines 56-66: as in the first revision. *)
Definition recover (result_text : json) : res json :=
  Rev220541.recover result_text.

(** Lines 71-72, for one textual value. *)
Definition clean_text (value : str) : json :=
  let cleaned := Py.remove_spaces (Py.strip value) in
  match cleaned with
  | [] => JNull
  | _ :: _ => JStr cleaned
  end.

(** Lines 69-72: the loop over the items of [result]; [result] is updated
    under keys it already has. *)
Fixpoint normalize_items (items result : dict) : dict :=
  match items with
  | [] => result
  | (key, value) :: rest =>
      normalize_items rest
        (match value with
         | JStr s => Dict.set key (clean_text s) result
         | _ => result
         end)
  end.

(** [result.items()] exists for a dict only. *)
Definition normalize (result : json) : res json :=
  match result with
  | JDict d => Ok (JDict (normalize_items d d))
  | _ => Raise AttributeError
  end.

Definition process_reply (result_text : json) : res json :=
  result <- recover result_text ;;
  normalize result.

Definition parse_fields (http : http_result) (raw_text : str)
  (fields : fields_t) : answer json :=
  wrap (
    response <- post http ;;
    env <- response_json response ;;
    result_text <- extract_reply env ;;
    process_reply result_text).

End Rev223926.

(** ** Revision 20251212225215 *)

Module Rev225215.

(** Lines 56-61: the same text as in the latest revision. *)
Definition extract_reply (env : json) : res json :=
  Rev020545.extract_reply env.

(** Lines 64-74: the same recovery as in the latest revision. *)
Definition recover (result_text : json) : res json :=
  Rev020545.recover result_text.

(** Lines 77-78. *)
Definition strip_vergi_no (result : json) : res json :=
  present <- Obj.contains "vergi_no" result ;;
  if present then
    v <- Obj.getitem result "vergi_no" ;;
    match v with
    | JStr s => Obj.setitem result "vergi_no" (JStr (Py.strip s))
    | _ => Ok result
    end
  else Ok result.

(** The test of line 82. *)
Definition needs_fallback (result : json) : res bool :=
  present <- Obj.contains "vergi_no" result ;;
  if present then
    v <- Obj.getitem result "vergi_no" ;;
    Ok (negb (truthy v))
  else Ok true.

(** Lines 83-87: the value found in the document text, kept as text. *)
Definition fallback_value (raw_text : str) : json :=
  match Re.search_vergi raw_text with
  | Some g => JStr (Py.remove_spaces g)
  | None => JNull
  end.

(** Lines 82-87. *)
Definition fill_vergi_no (raw_text : str) (result : json) : res json :=
  needed <- needs_fallback result ;;
  if needed then Obj.setitem result "vergi_no" (fallback_value raw_text)
  else Ok result.

Definition process_reply (raw_text : str) (result_text : json) : res json :=
  result <- recover result_text ;;
  stripped <- strip_vergi_no result ;;
  fill_vergi_no raw_text stripped.

Definition parse_fields (http : http_result) (raw_text : str)
  (fields : fields_t) : answer json :=
  wrap (
    response <- post http ;;
    env <- response_json response ;;
    result_text <- extract_reply env ;;
    process_reply raw_text result_text).

End Rev225215.

(** ** The description of the fields in the prompt

    [json.dumps(fields, ensure_ascii=False, indent=2)] for the declared
    fields, a mapping from text to mappings from text to text. *)

Module Encoder.
Local Open Scope char_scope.
Local Open Scope list_scope.

(** A lower-case hexadecimal digit. *)
Definition hex_digit (n : N) : ascii :=
  if (n <? 10)%N then ascii_of_N (48 + n) else ascii_of_N (87 + n).

(** The replacement of one character inside a JSON string: the two
    characters with a backslash form, the short escapes, [\u00XX] for the
    other control characters, and the character itself otherwise. *)
Definition escape (c : ascii) : str :=
  if Ascii.eqb c dquote then ["\"; dquote]
  else if Ascii.eqb c "\" then ["\"; "\"]
  else if Ascii.eqb c "010" then ["\"; "n"]
  else if Ascii.eqb c "013" then ["\"; "r"]
  else if Ascii.eqb c "009" then ["\"; "t"]
  else if Ascii.eqb c "008" then ["\"; "b"]
  else if Ascii.eqb c "012" then ["\"; "f"]
  else if (Py.code c <? 32)%N then
    ["\"; "u"; "0"; "0"; hex_digit (Py.code c / 16);
     hex_digit (Py.code c mod 16)]
  else [c].

(** [encode_basestring]: the quoted, escaped text. *)
Definition encode_basestring (s : str) : str :=
  dquote :: flat_map escape s ++ [dquote].

(** A newline followed by the indentation of a nesting level. *)
Definition newline_indent (level : nat) : str :=
  "010" :: repeat " " (2 * level).

(** [sep.join(parts)]. *)
Fixpoint join (sep : str) (parts : list str) : str :=
  match parts with
  | [] => []
  | [p] => p
  | p :: rest => p ++ sep ++ join sep rest
  end.

(** A mapping at the nesting level [level], its values written by
    [encode_value]. *)
Definition encode_dict {V : Type} (encode_value : V -> str) (level : nat)
  (d : list (str * V)) : str :=
  match d with
  | [] => of_string "{}"
  | _ :: _ =>
      "{" :: newline_indent (S level)
      ++ join ("," :: newline_indent (S level))
           (map (fun kv => encode_basestring (fst kv) ++ ":" :: " "
                           :: encode_value (snd kv)) d)
      ++ newline_indent level ++ ["}"]
  end.

(** Line 20 of the latest revision (line 24 of revision 20251212223536). *)
Definition fields_description (fields : fields_t) : str :=
  encode_dict (encode_dict encode_basestring 1) 0 fields.

(** The declared fields as the JSON value they denote. *)
Definition fields_value (fields : fields_t) : json :=
  JDict (map (fun kc =>
                (fst kc, JDict (map (fun kv => (fst kv, JStr (snd kv)))
                                  (snd kc))))
           fields).

(** An entry of a mapping as the JSON entry it denotes. *)
Definition item_json {V : Type} (value_json : V -> json) (kv : str * V)
  : str * json :=
  (fst kv, value_json (snd kv)).

(** The text of the members of [d] at the nesting level [level], from just
    after the opening quote of the first key up to and including the
    closing brace, followed by [rest]. *)
Fixpoint members_text {V : Type} (encode_value : V -> str) (level : nat)
  (d : list (str * V)) (rest : str) : str :=
  match d with
  | [] => rest
  | kv :: d' =>
      flat_map escape (fst kv) ++ dquote :: ":" :: " "
      :: encode_value (snd kv)
      ++ match d' with
         | [] => newline_indent level ++ "}" :: rest
         | _ :: _ =>
             "," :: newline_indent (S level)
             ++ dquote :: members_text encode_value level d' rest
         end
  end.

End Encoder.

(** ** Vocabulary of the statements *)


(** Text without the character [c]. *)
Definition lacks (c : ascii) (s : str) : bool :=
  forallb (fun a => negb (Ascii.eqb a c)) s.

(** Text with neither brace. *)
Definition brace_free (s : str) : bool :=
  lacks "{"%char s && lacks "}"%char s.

(** Text that starts with ["{"] and ends with a later ["}"]. *)
Definition braced (s : str) : bool :=
  match s with
  | c :: t =>
      Ascii.eqb c "{" &&
      match rev t with
      | e :: _ => Ascii.eqb e "}"
      | [] => false
      end
  | [] => false
  end.

(** A character that may follow a value inside an object or an array. *)
Definition delim (c : ascii) : bool :=
  Json.isws c || Ascii.eqb c "," || Ascii.eqb c "]" || Ascii.eqb c "}".

(** A character that opens a string, an object or an array. *)
Definition opener (c : ascii) : bool :=
  Ascii.eqb c dquote || Ascii.eqb c "{" || Ascii.eqb c "[".

(** Does the text start with a character of the class [f]? *)
Definition head_is (f : ascii -> bool) (s : str) : bool :=
  match s with
  | c :: _ => f c
  | [] => false
  end.

(** The value read from [s] with [r] left over does not depend on what
    follows [r]. *)
Definition stable (s r : str) : bool := head_is opener s || head_is delim r.

(** Text without a digit. *)
Definition digit_free (s : str) : bool :=
  forallb (fun c => negb (Py.isdigit c)) s.

(** The declared field of the scenarios. *)
Definition tax_fields : fields_t :=
  [(of_string "taxId",
    [(of_string "type", of_string "Integer");
     (of_string "name", of_string "Tax ID")])].

(** * Properties *)

(** ** Checks on concrete inputs *)

Example int_plain : Py.int "12345678910" = Some 12345678910%Z.
Proof. reflexivity. Qed.

Example int_sign_underscore : Py.int " -1_000 " = Some (-1000)%Z.
Proof. reflexivity. Qed.

Example int_inner_space : Py.int "12 34" = None.
Proof. reflexivity. Qed.

Example strip_outer : Py.strip "  a b  " = of_string "a b".
Proof. reflexivity. Qed.

Example vergi_plain :
  Re.search_vergi "VERGI NO: 1234567890" = Some (of_string "1234567890").
Proof. reflexivity. Qed.

Example vergi_needs_boundary :
  Re.search_vergi "a1234567890 12 345 678 901 x"
  = Some (of_string "12 345 678 901 ").
Proof. reflexivity. Qed.

Example vergi_too_short : Re.search_vergi "tel 123456789" = None.
Proof. reflexivity. Qed.

Example vergi_backtracks :
  Re.search_vergi "1234567890abc 12345678901."
  = Some (of_string "12345678901").
Proof. reflexivity. Qed.

Example braces_widest :
  Re.search_braces "ab {c} d } e" = Some (of_string "{c} d }").
Proof. reflexivity. Qed.

Example braces_none : Re.search_braces "} { {" = None.
Proof. reflexivity. Qed.

Example findall_non_overlapping :
  Re.findall_d11 "a123456789012345678901234b"
  = [of_string "12345678901"; of_string "23456789012"].
Proof. reflexivity. Qed.

Example loads_object :
  Json.loads (js "{'a': 1, 'b': [true, null, 'x\n'], 'a': -2.50e3}")
  = Some (JDict [(of_string "a", JFloat (FDec true 250 1));
                 (of_string "b",
                  JList [JBool true; JNull; JStr ["x"%char; "010"%char]])]).
Proof. reflexivity. Qed.

Example loads_extra_data : Json.loads (js " {'a': 1} trailing") = None.
Proof. reflexivity. Qed.

Example loads_trailing_comma : Json.loads (js "{'a': 1,}") = None.
Proof. reflexivity. Qed.

Example loads_leading_zero : Json.loads (js "[1, 01]") = None.
Proof. reflexivity. Qed.

Example loads_constants :
  Json.loads (js "[NaN, -Infinity, 0, -0, 1e2, 0.0]")
  = Some (JList [JFloat FNaN; JFloat (FInf true); JInt 0; JInt 0;
                 JFloat (FDec false 1 2); JFloat (FDec false 0 (-1))]).
Proof. reflexivity. Qed.

Example loads_empty : Json.loads "" = None.
Proof. reflexivity. Qed.

Example loads_escapes :
  Json.loads (js "'\u0041\ud83d\ude00\t'")
  = Some (JStr ["A"%char; "240"%char; "159"%char; "152"%char; "128"%char;
                "009"%char]).
Proof. reflexivity. Qed.

Example loads_control_character :
  Json.loads (dquote :: lines ["a"; "b"] ++ [dquote]) = None.
Proof. reflexivity. Qed.

Example truthy_tiny_float :
  truthy (JFloat (FDec false 1 (-400))) = false /\
  truthy (JFloat (FDec false 5 (-324))) = true.
Proof. split; vm_compute; reflexivity. Qed.

Example fenced_scenario_223536 :
  Rev223536.parse_fields
    (HttpResponse 200
       (js "{'response': '```json\n{\'taxId\': \'12 34\'}\n```'}"))
    "" tax_fields
  = Return [(of_string "taxId", JInt 1234)].
Proof. reflexivity. Qed.

(** ** Text and dictionaries *)

Lemma py_eqb_eq (s t : str) : Py.eqb s t = true <-> s = t.
Proof.
  revert t; induction s as [|a s IH]; intros [|b t]; simpl;
    try (split; [discriminate | congruence]); try tauto.
  rewrite andb_true_iff, Ascii.eqb_eq, IH.
  split; [intros [-> ->]; reflexivity | intros H; inversion H; auto].
Qed.

Lemma py_eqb_refl (s : str) : Py.eqb s s = true.
Proof. apply py_eqb_eq; reflexivity. Qed.

Lemma py_eqb_neq (s t : str) : Py.eqb s t = false <-> s <> t.
Proof.
  rewrite <- py_eqb_eq. destruct (Py.eqb s t); split; congruence.
Qed.

Section DictFacts.
Context {V : Type}.
Implicit Types (d : list (str * V)) (k : str) (v : V).

Lemma dict_get_set_same d k v : Dict.get k (Dict.set k v d) = Some v.
Proof.
  induction d as [|[k' v'] d IH]; simpl.
  - now rewrite py_eqb_refl.
  - destruct (Py.eqb k k') eqn:E; simpl; rewrite E; auto.
Qed.

Lemma dict_get_set_other d k k' v :
  k <> k' -> Dict.get k (Dict.set k' v d) = Dict.get k d.
Proof.
  intros Hne. induction d as [|[k2 v2] d IH]; simpl.
  - apply py_eqb_neq in Hne. now rewrite Hne.
  - destruct (Py.eqb k' k2) eqn:E; simpl.
    + apply py_eqb_eq in E; subst k2.
      apply py_eqb_neq in Hne. now rewrite Hne.
    + now rewrite IH.
Qed.

Lemma dict_has_in d k : Dict.has k d = true <-> In k (Dict.keys d).
Proof.
  unfold Dict.has. induction d as [|[k' v'] d IH]; simpl.
  - split; [discriminate | tauto].
  - destruct (Py.eqb k k') eqn:E.
    + apply py_eqb_eq in E. split; auto.
    + apply py_eqb_neq in E. rewrite IH. split; auto.
      intros [H | H]; [congruence | exact H].
Qed.

Lemma dict_keys_set d k v :
  Dict.keys (Dict.set k v d)
  = if Dict.has k d then Dict.keys d else Dict.keys d ++ [k].
Proof.
  unfold Dict.has. induction d as [|[k' v'] d IH]; simpl; auto.
  destruct (Py.eqb k k') eqn:E; simpl; auto.
  rewrite IH. destruct (Dict.get k d); reflexivity.
Qed.

Lemma dict_in_keys_set d k k' v :
  In k (Dict.keys (Dict.set k' v d)) <-> k = k' \/ In k (Dict.keys d).
Proof.
  rewrite dict_keys_set. destruct (Dict.has k' d) eqn:E.
  - apply dict_has_in in E. split; auto. intros [-> | H]; auto.
  - rewrite in_app_iff; simpl. intuition congruence.
Qed.

Lemma dict_nodup_set d k v :
  NoDup (Dict.keys d) -> NoDup (Dict.keys (Dict.set k v d)).
Proof.
  intros Hnd. rewrite dict_keys_set. destruct (Dict.has k d) eqn:E; auto.
  assert (~ In k (Dict.keys d)) as Hni.
  { rewrite <- dict_has_in. congruence. }
  clear E. induction (Dict.keys d) as [|a l IH]; simpl.
  - constructor; [tauto | constructor].
  - inversion Hnd; subst. constructor.
    + rewrite in_app_iff; simpl. simpl in Hni. intuition congruence.
    + apply IH; auto. simpl in Hni. tauto.
Qed.
End DictFacts.

(** ** The latest revision always answers with a ["vergi_no"] entry *)

Lemma setitem_ok (x : json) (k : str) (v r : json) :
  Obj.setitem x k v = Ok r ->
  exists d, x = JDict d /\ r = JDict (Dict.set k v d).
Proof.
  destruct x; simpl; try discriminate.
  intros H; inversion H; eauto.
Qed.

Lemma clean_vergi_no_shape (raw_text : str) (result r : json) :
  Rev020545.clean_vergi_no raw_text result = Ok r ->
  exists d v,
    result = JDict d /\ r = JDict (Dict.set "vergi_no" v d) /\
    (v = JNull \/ exists n, v = JInt n).
Proof.
  assert (forall v, (v = JNull \/ exists n, v = JInt n) ->
            Obj.setitem result "vergi_no" v = Ok r ->
            exists d v,
              result = JDict d /\ r = JDict (Dict.set "vergi_no" v d) /\
              (v = JNull \/ exists n, v = JInt n)) as Hset.
  { intros v Hv H. apply setitem_ok in H as (d & -> & ->).
    exists d, v. auto. }
  unfold Rev020545.clean_vergi_no.
  destruct (Rev020545.has_vergi_no result) as [[|]|e]; simpl;
    try discriminate.
  - destruct (Obj.getitem result "vergi_no") as [v|e]; simpl;
      try discriminate.
    destruct (Obj.clean_int v) as [n|]; apply Hset; eauto.
  - unfold Rev020545.fallback_value.
    destruct (Re.search_vergi raw_text) as [g|]; simpl.
    + destruct (Py.int (Py.remove_spaces g)) as [n|]; simpl;
        try discriminate.
      apply Hset; eauto.
    + apply Hset; eauto.
Qed.

(** C10. In revision 20251213020545, whenever [parse_fields] returns
    without error, what it returns is a mapping that has the key
    ["vergi_no"], bound to an integer or to [None], whatever fields were
    declared. *)
Theorem latest_always_has_vergi_no
  (http : http_result) (raw_text : str) (fields : fields_t) (r : json) :
  Rev020545.parse_fields http raw_text fields = Return r ->
  exists d, r = JDict d /\
    (Dict.get "vergi_no" d = Some JNull \/
     exists n, Dict.get "vergi_no" d = Some (JInt n)).
Proof.
  unfold Rev020545.parse_fields, Rev020545.process_reply.
  destruct (post http) as [response|e]; simpl; try discriminate.
  destruct (response_json response) as [env|e]; simpl; try discriminate.
  destruct (Rev020545.extract_reply env) as [t|e]; simpl; try discriminate.
  destruct (Rev020545.recover t) as [result|e]; simpl; try discriminate.
  destruct (Rev020545.clean_vergi_no raw_text result) as [r'|e] eqn:E;
    simpl; try discriminate.
  intros H; inversion H; subst r'.
  apply clean_vergi_no_shape in E as (d & v & -> & -> & Hv).
  exists (Dict.set "vergi_no" v d). split; [reflexivity|].
  rewrite dict_get_set_same.
  destruct Hv as [-> | [n ->]]; eauto.
Qed.

Lemma latest_always_has_vergi_no_witness :
  exists d,
    JDict [(of_string "ad", JStr "Ali"); (of_string "vergi_no", JNull)]
    = JDict d /\
    (Dict.get "vergi_no" d = Some JNull \/
     exists n, Dict.get "vergi_no" d = Some (JInt n)).
Proof.
  apply (latest_always_has_vergi_no
           (HttpResponse 200 (js "{'response': '{\'ad\': \'Ali\'}'}"))
           "no digits here"
           [(of_string "ad", [(of_string "type", of_string "string")])]).
  reflexivity.
Defined.

(** ** Failures that reach the caller in the latest revision *)

(** C2. In revision 20251213020545 a failed integer conversion of the
    fallback digit string is not absorbed: with a digit run that spans two
    lines of the document and a reply that is not JSON, [parse_fields]
    raises instead of returning a [None] entry. *)
Theorem latest_fallback_conversion_raises :
  Rev020545.parse_fields
    (HttpResponse 200 (js "{'response': 'no idea'}"))
    (lines ["Sicil 34000"; "1234567890"])
    [(of_string "vergi_no", [(of_string "type", of_string "integer")])]
  = OllamaAPIError ValueError.
Proof. reflexivity. Qed.

(** A reply that is valid JSON but not an object raises as well. *)
Lemma latest_non_object_reply_raises :
  Rev020545.parse_fields
    (HttpResponse 200 (js "{'response': '[1, 2]'}")) "" []
  = OllamaAPIError TypeError.
Proof. reflexivity. Qed.

(** ** The HTTP exchange *)




(** ** The response envelope *)

(** C8, as stated, fails: an envelope without a top-level reply whose
    ["data"] field is not a list makes the extraction raise instead of
    giving the empty reply. *)
Lemma envelope_scalar_data_raises :
  Json.loads (js "{'data': 5}") = Some (JDict [(of_string "data", JInt 5)]) /\
  Rev020545.extract_reply (JDict [(of_string "data", JInt 5)])
  = Raise TypeError /\
  Rev020545.parse_fields (HttpResponse 200 (js "{'data': 5}")) "" []
  = OllamaAPIError TypeError.
Proof. repeat split; reflexivity. Qed.

Lemma dict_has_get {V : Type} (k : str) (d : list (str * V)) :
  Dict.has k d = match Dict.get k d with Some _ => true | None => false end.
Proof. reflexivity. Qed.

(** C8, amended. For an envelope that is a JSON object: the value under
    ["response"] when that key is present; otherwise, when ["data"] holds
    a non-empty list whose first element is an object, that element's
    ["response"] (the empty text when it has none); otherwise, when
    ["data"] is absent or holds an empty list, the empty text, without
    error.  When ["data"] holds a number, a boolean or [null], or a list
    whose first element is not an object, the extraction raises. *)
Theorem envelope_precedence (env : dict) :
  (forall v, Dict.get "response" env = Some v ->
     Rev020545.extract_reply (JDict env) = Ok v) /\
  (forall item rest,
     Dict.get "response" env = None ->
     Dict.get "data" env = Some (JList (JDict item :: rest)) ->
     Rev020545.extract_reply (JDict env)
     = Ok (Dict.get_default "response" (JStr []) item)) /\
  (Dict.get "response" env = None ->
   Dict.get "data" env = None \/ Dict.get "data" env = Some (JList []) ->
   Rev020545.extract_reply (JDict env) = Ok (JStr [])) /\
  (forall v,
     Dict.get "response" env = None ->
     Dict.get "data" env = Some v ->
     Obj.len v = Raise TypeError ->
     Rev020545.extract_reply (JDict env) = Raise TypeError) /\
  (forall v rest,
     Dict.get "response" env = None ->
     Dict.get "data" env = Some (JList (v :: rest)) ->
     (forall item, v <> JDict item) ->
     Rev020545.extract_reply (JDict env) = Raise AttributeError).
Proof.
  unfold Rev020545.extract_reply; simpl; rewrite !dict_has_get.
  repeat split.
  - intros v H. now rewrite H.
  - intros item rest H1 H2. now rewrite H1, H2.
  - intros H1 [H2 | H2]; now rewrite H1, H2.
  - intros v H1 H2 H3. rewrite H1, H2. simpl. now rewrite H3.
  - intros v rest H1 H2 H3. rewrite H1, H2. simpl.
    destruct v; try reflexivity. now elim (H3 d).
Qed.

Lemma envelope_precedence_witness :
  Rev020545.extract_reply
    (JDict [(of_string "data",
             JList [JDict [(of_string "response", JStr "{}")]])])
  = Ok (JStr "{}").
Proof.
  apply (proj1 (proj2 (envelope_precedence
    [(of_string "data",
      JList [JDict [(of_string "response", JStr "{}")]])]))
    [(of_string "response", JStr "{}")] []); reflexivity.
Defined.

(** ** The keys of the returned record *)

Section CoerceKeys.
Variable result : json.

Lemma coerce_fields_keys (fields : fields_t) :
  forall acc processed,
    Rev223536.coerce_fields result fields acc = Ok processed ->
    (NoDup (Dict.keys acc) -> NoDup (Dict.keys processed)) /\
    (forall k, In k (Dict.keys processed) <->
               In k (Dict.keys acc) \/ In k (map fst fields)).
Proof.
  induction fields as [|[key expected] rest IH]; simpl; intros acc p H.
  - inversion H; subst. tauto.
  - destruct (Rev223536.coerce_value expected
                (Rev223536.raw_value_of result key)) as [v|e];
      simpl in H; try discriminate.
    apply IH in H as [Hnd Hin]. split.
    + intros Hacc. apply Hnd. now apply dict_nodup_set.
    + intros k. rewrite Hin, dict_in_keys_set.
      intuition congruence.
Qed.
End CoerceKeys.

Lemma fill_tax_keys (m : str) (fields : fields_t) :
  forall processed,
    (forall k, In k (map fst fields) -> In k (Dict.keys processed)) ->
    Dict.keys (Rev223536.fill_tax m fields processed) = Dict.keys processed.
Proof.
  induction fields as [|[key conf] rest IH]; simpl; intros p Hsub; auto.
  assert (In key (Dict.keys p)) as Hkey by auto.
  destruct (Rev223536.is_tax_field conf).
  - rewrite IH.
    + rewrite dict_keys_set.
      apply dict_has_in in Hkey. now rewrite Hkey.
    + intros k Hk. apply dict_in_keys_set. auto.
  - apply IH. auto.
Qed.

Lemma finish_keys (raw_text : str) (fields : fields_t) (processed : dict) :
  (forall k, In k (map fst fields) -> In k (Dict.keys processed)) ->
  Dict.keys (Rev223536.finish raw_text fields processed)
  = Dict.keys processed.
Proof.
  intros Hsub. unfold Rev223536.finish, Rev223536.fallback.
  destruct (Rev223536.all_none processed); auto.
  destruct (Re.findall_d11 (Re.sub_spaces raw_text)); auto.
  now apply fill_tax_keys.
Qed.

Lemma process_text_keys
  (raw_text : str) (fields : fields_t) (t : str) (r : dict) :
  Rev223536.process_text raw_text fields t = Ok r ->
  NoDup (Dict.keys r) /\
  (forall k, In k (Dict.keys r) <-> In k (map fst fields)).
Proof.
  unfold Rev223536.process_text.
  destruct (Rev223536.coerce_fields (Rev223536.recover t) fields [])
    as [p|e] eqn:E; simpl; try discriminate.
  intros H; inversion H; subst r; clear H.
  apply coerce_fields_keys in E as [Hnd Hin]. simpl in Hnd, Hin.
  rewrite finish_keys.
  - split; [apply Hnd; constructor|].
    intros k. rewrite Hin. tauto.
  - intros k Hk. apply Hin. auto.
Qed.

Lemma parse_fields_inv_223536
  (http : http_result) (raw_text : str) (fields : fields_t) (r : dict) :
  Rev223536.parse_fields http raw_text fields = Return r ->
  exists t, Rev223536.process_text raw_text fields t = Ok r.
Proof.
  unfold Rev223536.parse_fields, Rev223536.process_reply.
  destruct (post http) as [response|e]; simpl; try discriminate.
  destruct (response_json response) as [env|e]; simpl; try discriminate.
  destruct (Rev223536.extract_reply env) as [rt|e]; simpl; try discriminate.
  destruct (Rev223536.strip_reply rt) as [t|e]; simpl; try discriminate.
  destruct (Rev223536.process_text raw_text fields t) as [r'|e] eqn:E;
    simpl; try discriminate.
  intros H; inversion H; subst. eauto.
Qed.

Lemma latest_process_reply_shape (raw_text t : str) (r : json) :
  Rev020545.process_reply raw_text (JStr t) = Ok r ->
  exists d v,
    Rev020545.recover_text t = JDict d /\
    r = JDict (Dict.set "vergi_no" v d) /\
    (v = JNull \/ exists n, v = JInt n).
Proof.
  unfold Rev020545.process_reply. simpl. intros H.
  apply clean_vergi_no_shape in H as (d & v & Hd & -> & Hv).
  exists d, v. auto.
Qed.

(** C3, as stated, fails in the latest revision: with the single declared
    field ["taxId"] and a reply that is an object with the key ["ad"], the
    returned mapping has the keys ["ad"] and ["vergi_no"], and not
    ["taxId"]. *)
Lemma latest_keys_are_not_the_declared_ones :
  let fields : fields_t :=
    [(of_string "taxId", [(of_string "type", of_string "integer")])] in
  exists d,
    Rev020545.parse_fields
      (HttpResponse 200 (js "{'response': '{\'ad\': \'Ali\'}'}"))
      "no digits here" fields
    = Return (JDict d) /\
    Dict.keys d = [of_string "ad"; of_string "vergi_no"] /\
    map fst fields = [of_string "taxId"].
Proof. eexists. repeat split. Qed.

(** C3, amended. In revision 20251212223536 the record [parse_fields]
    returns has exactly the declared keys, each once.  In revision
    20251213020545 the returned mapping has the keys of the object
    recovered from the reply, and the key ["vergi_no"]; the declared
    fields play no part. *)
Theorem record_keys :
  (forall http raw_text fields r,
     Rev223536.parse_fields http raw_text fields = Return r ->
     NoDup (Dict.keys r) /\
     (forall k, In k (Dict.keys r) <-> In k (map fst fields))) /\
  (forall raw_text t r,
     Rev020545.process_reply raw_text (JStr t) = Ok r ->
     exists d d',
       Rev020545.recover_text t = JDict d /\ r = JDict d' /\
       (forall k, In k (Dict.keys d') <->
                  k = of_string "vergi_no" \/ In k (Dict.keys d))).
Proof.
  split.
  - intros http raw_text fields r H.
    apply parse_fields_inv_223536 in H as [t H].
    now apply process_text_keys in H.
  - intros raw_text t r H.
    apply latest_process_reply_shape in H as (d & v & Hd & -> & _).
    exists d, (Dict.set "vergi_no" v d). repeat split; auto.
    + apply dict_in_keys_set.
    + apply dict_in_keys_set.
Qed.

Lemma record_keys_witness :
  NoDup (Dict.keys [(of_string "taxId", JInt 1234)]) /\
  (forall k, In k (Dict.keys [(of_string "taxId", JInt 1234)]) <->
             In k (map fst tax_fields)).
Proof.
  apply (proj1 record_keys
           (HttpResponse 200 (js "{'response': '{\'taxId\': \'12 34\'}'}"))
           "" tax_fields).
  reflexivity.
Defined.

(** ** When the fallback runs *)

Lemma all_none_get (processed : dict) (k : str) (v : json) :
  Dict.get k processed = Some v -> v <> JNull ->
  Rev223536.all_none processed = false.
Proof.
  unfold Rev223536.all_none, Dict.values.
  induction processed as [|[k' v'] p IH]; simpl; try discriminate.
  destruct (Py.eqb k k').
  - intros H Hv; inversion H; subst v'.
    destruct v; simpl; congruence.
  - intros H Hv. rewrite (IH H Hv). apply andb_false_r.
Qed.

(** C1, as stated, fails in the latest revision: the reply binds ["ad"] to
    a text and ["vergi_no"] to [null], so one value is not [None]; the
    fallback runs all the same and the returned mapping differs from the
    recovered one at ["vergi_no"]. *)
Lemma latest_fallback_runs_beside_values :
  let reply := js "{'ad': 'Ali', 'vergi_no': null}" in
  Rev020545.recover_text reply
  = JDict [(of_string "ad", JStr "Ali"); (of_string "vergi_no", JNull)] /\
  Rev020545.process_reply "VERGI NO: 1234567890" (JStr reply)
  = Ok (JDict [(of_string "ad", JStr "Ali");
               (of_string "vergi_no", JInt 1234567890)]).
Proof. split; reflexivity. Qed.

Lemma fallback_trigger_core :
  forall raw_text t d,
    Rev020545.recover_text t = JDict d ->
    (forall v, Dict.get "vergi_no" d = Some v -> truthy v = true ->
       Rev020545.process_reply raw_text (JStr t)
       = Ok (JDict (Dict.set "vergi_no"
                      (match Obj.clean_int v with
                       | Some n => JInt n
                       | None => JNull
                       end) d))) /\
    ((forall v, Dict.get "vergi_no" d = Some v -> truthy v = false) ->
       Rev020545.process_reply raw_text (JStr t)
       = (v <- Rev020545.fallback_value raw_text ;;
          Ok (JDict (Dict.set "vergi_no" v d)))) /\
    (forall r k, Rev020545.process_reply raw_text (JStr t) = Ok (JDict r) ->
       k <> of_string "vergi_no" -> Dict.get k r = Dict.get k d).
Proof.
  intros raw_text t d Hd.
  unfold Rev020545.process_reply, Rev020545.clean_vergi_no,
    Rev020545.has_vergi_no. simpl. rewrite Hd. simpl.
  rewrite dict_has_get. repeat split.
  + intros v Hv Ht. rewrite Hv. simpl. rewrite Ht. simpl.
    now destruct (Obj.clean_int v).
  + intros Hf. destruct (Dict.get "vergi_no" d) as [v|] eqn:Hv; simpl.
    * rewrite (Hf v eq_refl). simpl.
      now destruct (Rev020545.fallback_value raw_text).
    * now destruct (Rev020545.fallback_value raw_text).
  + intros r k H Hk.
    assert (exists v, r = Dict.set "vergi_no" v d) as [v ->].
    { destruct (Dict.get "vergi_no" d) as [v|]; simpl in H.
      - destruct (truthy v); simpl in H.
        + destruct (Obj.clean_int v); inversion H; eauto.
        + destruct (Rev020545.fallback_value raw_text); simpl in H;
            inversion H; eauto.
      - destruct (Rev020545.fallback_value raw_text); simpl in H;
          inversion H; eauto. }
    now apply dict_get_set_other.
Qed.

(** C1, amended. In revision 20251212223536 the fallback runs exactly when
    every coerced value is [None]: when some coerced value is not [None]
    the record returned is the coerced record, so no value the model
    produced is replaced.  In revision 20251213020545 the fallback is
    decided by ["vergi_no"] alone: when the recovered object binds it to a
    truthy value, that value is cleaned and the document text is not
    consulted; otherwise the entry is what the fallback finds, whatever
    the other entries hold; the other entries are returned as recovered. *)
Theorem fallback_trigger :
  (forall raw_text fields t processed,
     Rev223536.coerce_fields (Rev223536.recover t) fields [] = Ok processed ->
     Rev223536.process_text raw_text fields t
     = Ok (if Rev223536.all_none processed
           then Rev223536.fallback raw_text fields processed
           else processed) /\
     (forall k v, Dict.get k processed = Some v -> v <> JNull ->
        Rev223536.process_text raw_text fields t = Ok processed)) /\
  (forall raw_text t d,
     Rev020545.recover_text t = JDict d ->
     (forall v, Dict.get "vergi_no" d = Some v -> truthy v = true ->
        Rev020545.process_reply raw_text (JStr t)
        = Ok (JDict (Dict.set "vergi_no"
                       (match Obj.clean_int v with
                        | Some n => JInt n
                        | None => JNull
                        end) d))) /\
     ((forall v, Dict.get "vergi_no" d = Some v -> truthy v = false) ->
        Rev020545.process_reply raw_text (JStr t)
        = (v <- Rev020545.fallback_value raw_text ;;
           Ok (JDict (Dict.set "vergi_no" v d)))) /\
     (forall r k, Rev020545.process_reply raw_text (JStr t) = Ok (JDict r) ->
        k <> of_string "vergi_no" -> Dict.get k r = Dict.get k d)).
Proof.
  split.
  - intros raw_text fields t processed H.
    unfold Rev223536.process_text, Rev223536.finish. rewrite H. simpl.
    split; [reflexivity|].
    intros k v Hk Hv. now rewrite (all_none_get _ _ _ Hk Hv).
  - apply fallback_trigger_core.
Qed.

Lemma fallback_trigger_witness :
  Rev223536.process_text "VERGI NO: 12345678901" tax_fields
    (js "{'taxId': '12 34'}")
  = Ok [(of_string "taxId", JInt 1234)].
Proof.
  apply (proj2 (proj1 fallback_trigger "VERGI NO: 12345678901" tax_fields
                  (js "{'taxId': '12 34'}")
                  [(of_string "taxId", JInt 1234)] eq_refl)
           "taxId" (JInt 1234)).
  - reflexivity.
  - discriminate.
Defined.

(** ** Integer coercion *)













(** ** Recovering the object from a reply *)

Lemma braced_inv (s : str) :
  braced s = true -> exists body, s = "{"%char :: body ++ ["}"%char].
Proof.
  destruct s as [|c t]; simpl; try discriminate.
  intros H. apply andb_true_iff in H as [Hc He].
  apply Ascii.eqb_eq in Hc; subst c.
  destruct (rev t) as [|e u] eqn:E; try discriminate.
  apply Ascii.eqb_eq in He; subst e.
  exists (rev u). rewrite <- (rev_involutive t), E. reflexivity.
Qed.

Lemma upto_last_close_none (s : str) :
  lacks "}"%char s = true -> Re.upto_last_close s = None.
Proof.
  unfold lacks. induction s as [|c s IH]; simpl; auto.
  intros H. apply andb_true_iff in H as [Hc Hs].
  rewrite (IH Hs). apply negb_true_iff in Hc. now rewrite Hc.
Qed.

Lemma upto_last_close_app (body post : str) :
  lacks "}"%char post = true ->
  Re.upto_last_close (body ++ "}"%char :: post) = Some (body ++ ["}"%char]).
Proof.
  intros Hp. induction body as [|c body IH]; simpl.
  - now rewrite (upto_last_close_none post Hp).
  - now rewrite IH.
Qed.

Lemma search_braces_skip (pre s : str) :
  lacks "{"%char pre = true ->
  Re.search_braces (pre ++ s) = Re.search_braces s.
Proof.
  unfold lacks. induction pre as [|c pre IH]; simpl; auto.
  intros H. apply andb_true_iff in H as [Hc Hs].
  apply negb_true_iff in Hc. rewrite Hc. auto.
Qed.

Lemma search_braces_block (pre body post : str) :
  lacks "{"%char pre = true ->
  lacks "}"%char post = true ->
  Re.search_braces (pre ++ ("{"%char :: body ++ ["}"%char]) ++ post)
  = Some ("{"%char :: body ++ ["}"%char]).
Proof.
  intros Hpre Hpost. rewrite search_braces_skip by assumption.
  simpl. rewrite <- app_assoc. simpl.
  now rewrite upto_last_close_app.
Qed.

Lemma find_skip (c : ascii) (pre s : str) :
  lacks c pre = true ->
  Py.find c (pre ++ c :: s) = Some (List.length pre).
Proof.
  unfold lacks. induction pre as [|a pre IH]; simpl.
  - now rewrite Ascii.eqb_refl.
  - intros H. apply andb_true_iff in H as [Ha Hs].
    apply negb_true_iff in Ha. now rewrite Ha, IH.
Qed.

Lemma rfind_none (c : ascii) (s : str) :
  lacks c s = true -> Py.rfind c s = None.
Proof.
  unfold lacks. induction s as [|a s IH]; simpl; auto.
  intros H. apply andb_true_iff in H as [Ha Hs].
  apply negb_true_iff in Ha. now rewrite IH, Ha.
Qed.

Lemma rfind_last (c : ascii) (s post : str) :
  lacks c post = true ->
  Py.rfind c (s ++ c :: post) = Some (List.length s).
Proof.
  intros Hp. induction s as [|a s IH]; simpl.
  - now rewrite rfind_none, Ascii.eqb_refl.
  - now rewrite IH.
Qed.

Lemma slice_middle (pre mid post : str) :
  Py.slice (List.length pre) (List.length pre + List.length mid)
    (pre ++ mid ++ post) = mid.
Proof.
  unfold Py.slice.
  rewrite skipn_app, skipn_all, Nat.sub_diag. simpl.
  replace (List.length pre + List.length mid - List.length pre)%nat
    with (List.length mid) by lia.
  rewrite firstn_app, firstn_all, Nat.sub_diag. simpl.
  apply app_nil_r.
Qed.

Lemma brace_candidate_block (pre body post : str) :
  lacks "{"%char pre = true ->
  lacks "}"%char post = true ->
  Rev223536.brace_candidate
    (pre ++ ("{"%char :: body ++ ["}"%char]) ++ post)
  = Some ("{"%char :: body ++ ["}"%char]).
Proof.
  intros Hpre Hpost. unfold Rev223536.brace_candidate.
  assert (Py.find "{"%char (pre ++ ("{"%char :: body ++ ["}"%char]) ++ post)
          = Some (List.length pre)) as ->.
  { simpl. now apply find_skip. }
  assert (Py.rfind "}"%char
            (pre ++ ("{"%char :: body ++ ["}"%char]) ++ post)
          = Some (List.length pre + S (List.length body))) as ->.
  { replace (pre ++ ("{"%char :: body ++ ["}"%char]) ++ post)
      with ((pre ++ "{"%char :: body) ++ "}"%char :: post)
      by (simpl; now rewrite <- !app_assoc).
    rewrite rfind_last by assumption.
    now rewrite length_app. }
  replace (List.length pre <? List.length pre + S (List.length body))%nat
    with true by (symmetry; apply Nat.ltb_lt; lia).
  f_equal.
  replace (List.length pre + S (List.length body) + 1)%nat
    with (List.length pre + List.length ("{"%char :: body ++ ["}"%char]))%nat
    by (simpl; rewrite length_app; simpl; lia).
  apply slice_middle.
Qed.

Lemma strip_prefix_inv (p s r : str) :
  Py.strip_prefix p s = Some r -> s = p ++ r.
Proof.
  revert s; induction p as [|a p IH]; intros [|b s]; simpl;
    try discriminate; try (intros H; inversion H; reflexivity).
  destruct (Ascii.eqb a b) eqn:E; try discriminate.
  apply Ascii.eqb_eq in E; subst b.
  intros H. now rewrite (IH _ H).
Qed.

Lemma startswith_inv (p s : str) :
  Py.startswith p s = true -> exists r, s = p ++ r.
Proof.
  unfold Py.startswith.
  destruct (Py.strip_prefix p s) as [r|] eqn:E; try discriminate.
  intros _. exists r. now apply strip_prefix_inv.
Qed.

(** A reply that starts with a backquote is not JSON. *)
Lemma loads_backquote (s : str) : Json.loads ("`"%char :: s) = None.
Proof. reflexivity. Qed.

(** ** Text that follows a value does not change the value

    The decoder reads a value from left to right.  What comes after a
    string, an object or an array plays no part in it; what comes after a
    number or a literal plays no part once a delimiter has been seen. *)

Lemma delim_facts (c : ascii) :
  delim c = true ->
  Py.isdigit c = false /\ Ascii.eqb c "." = false /\
  Ascii.eqb c "e" || Ascii.eqb c "E" = false.
Proof.
  destruct c as [[] [] [] [] [] [] [] []]; vm_compute;
    intros H; try discriminate H; repeat split.
Qed.

Lemma opener_not_ws (c : ascii) : opener c = true -> Json.isws c = false.
Proof.
  destruct c as [[] [] [] [] [] [] [] []]; vm_compute;
    intros H; try discriminate H; reflexivity.
Qed.

Lemma skip_ws_cons_app (s t x : str) (c : ascii) :
  Json.skip_ws s = c :: t -> Json.skip_ws (s ++ x) = c :: t ++ x.
Proof.
  induction s as [|a s IH]; simpl; try discriminate.
  destruct (Json.isws a); auto.
  intros H; inversion H; reflexivity.
Qed.

Lemma skip_ws_head_delim (r t : str) (c : ascii) :
  Json.skip_ws r = c :: t -> delim c = true -> head_is delim r = true.
Proof.
  destruct r as [|a r]; simpl; try discriminate.
  destruct (Json.isws a) eqn:E.
  - intros _ _. unfold delim. now rewrite E.
  - intros H; inversion H; subst; auto.
Qed.

Lemma scan_chars_app (x s : str) :
  forall st pending out v r,
    Json.scan_chars st pending out s = Some (v, r) ->
    Json.scan_chars st pending out (s ++ x) = Some (v, r ++ x).
Proof.
  induction s as [|c s IH]; intros st pending out v r H; simpl in *;
    try discriminate.
  destruct st.
  - destruct (Ascii.eqb c dquote).
    { inversion H; subst; reflexivity. }
    destruct (Ascii.eqb c "\"); auto.
    destruct (Py.code c <? 32)%N; try discriminate; auto.
  - destruct (Ascii.eqb c "u"); auto.
    destruct (Json.unescape c); try discriminate; auto.
  - destruct (Json.hex_val c); try discriminate.
    destruct k as [|[|[|[|k]]]]; auto.
    destruct (Json.emit_unit pending (acc * 16 + n) out); auto.
Qed.

Lemma scanstring_app (x s v r : str) :
  Json.scanstring s = Some (v, r) ->
  Json.scanstring (s ++ x) = Some (v, r ++ x).
Proof. apply scan_chars_app. Qed.

Lemma span_digits_app (x s ds r : str) (c : ascii) :
  Json.span_digits s = (ds, c :: r) ->
  Json.span_digits (s ++ x) = (ds, c :: r ++ x).
Proof.
  revert ds; induction s as [|a s IH]; simpl; intros ds; try discriminate.
  destruct (Py.isdigit a).
  - destruct (Json.span_digits s) as [ds' r'] eqn:E.
    intros H; inversion H; subst.
    now rewrite (IH _ eq_refl).
  - intros H; inversion H; subst; reflexivity.
Qed.

Lemma scan_int_part_app (x s ip r : str) (neg : bool) (c : ascii) :
  Json.scan_int_part s = Some (neg, ip, c :: r) ->
  Json.scan_int_part (s ++ x) = Some (neg, ip, c :: r ++ x).
Proof.
  assert (forall b t,
    match t with
    | a :: u =>
        if Ascii.eqb a "0" then Some (b, [a], u)
        else if Py.isdigit a then
          let '(ds, r0) := Json.span_digits u in Some (b, a :: ds, r0)
        else None
    | [] => None
    end = Some (neg, ip, c :: r) ->
    match t ++ x with
    | a :: u =>
        if Ascii.eqb a "0" then Some (b, [a], u)
        else if Py.isdigit a then
          let '(ds, r0) := Json.span_digits u in Some (b, a :: ds, r0)
        else None
    | [] => None
    end = Some (neg, ip, c :: r ++ x)) as Hcore.
  { intros b [|a u]; simpl; try discriminate.
    destruct (Ascii.eqb a "0").
    { intros H; inversion H; subst; reflexivity. }
    destruct (Py.isdigit a); try discriminate.
    destruct (Json.span_digits u) as [ds r0] eqn:E.
    intros H; inversion H; subst.
    now rewrite (span_digits_app x _ _ _ _ E). }
  unfold Json.scan_int_part. destruct s as [|a t]; simpl; try discriminate.
  destruct (Ascii.eqb a "-").
  - apply Hcore.
  - apply (Hcore false (a :: t)).
Qed.

Lemma scan_frac_app (x s r : str) (frac : option str) (c : ascii) :
  Json.scan_frac s = (frac, c :: r) ->
  Ascii.eqb c "." = false ->
  Json.scan_frac (s ++ x) = (frac, c :: r ++ x).
Proof.
  unfold Json.scan_frac. destruct s as [|a t]; simpl; try discriminate.
  destruct (Ascii.eqb a ".") eqn:Ea.
  - destruct (Json.span_digits t) as [[|d ds] r0] eqn:E.
    + intros H; inversion H; subst. congruence.
    + intros H _; inversion H; subst.
      now rewrite (span_digits_app x _ _ _ _ E).
  - intros H _; inversion H; subst; reflexivity.
Qed.

Lemma scan_sign_app (x t t1 : str) (neg : bool) :
  Json.scan_sign t = (neg, t1) -> t1 <> [] ->
  Json.scan_sign (t ++ x) = (neg, t1 ++ x).
Proof.
  unfold Json.scan_sign. destruct t as [|a u]; simpl.
  - intros H; inversion H; congruence.
  - destruct (Ascii.eqb a "-").
    { intros H; inversion H; reflexivity. }
    destruct (Ascii.eqb a "+"); intros H; inversion H; reflexivity.
Qed.

Lemma scan_exp_app (x s r : str) (ex : option Z) (c : ascii) :
  Json.scan_exp s = (ex, c :: r) ->
  Ascii.eqb c "e" || Ascii.eqb c "E" = false ->
  Json.scan_exp (s ++ x) = (ex, c :: r ++ x).
Proof.
  unfold Json.scan_exp. destruct s as [|a t]; simpl; try discriminate.
  destruct (Ascii.eqb a "e" || Ascii.eqb a "E") eqn:Ea.
  - destruct (Json.scan_sign t) as [neg t1] eqn:Es.
    destruct (Json.span_digits t1) as [[|d ds] r0] eqn:E.
    + intros H; inversion H; subst. congruence.
    + intros H _; inversion H; subst.
      assert (t1 <> []) as Hne.
      { intros ->. simpl in E. discriminate. }
      rewrite (scan_sign_app x _ _ _ Es Hne).
      now rewrite (span_digits_app x _ _ _ _ E).
  - intros H _; inversion H; subst; reflexivity.
Qed.

Lemma scan_number_app (x s r : str) (v : json) (c : ascii) :
  Json.scan_number s = Some (v, c :: r) ->
  delim c = true ->
  Json.scan_number (s ++ x) = Some (v, c :: r ++ x).
Proof.
  intros H Hc. destruct (delim_facts c Hc) as (_ & Hdot & He).
  unfold Json.scan_number in *.
  destruct (Json.scan_int_part s) as [[[neg ip] r1]|] eqn:E1;
    try discriminate.
  destruct (Json.scan_frac r1) as [frac r2] eqn:E2.
  destruct (Json.scan_exp r2) as [ex r3] eqn:E3.
  assert (r3 = c :: r) as ->.
  { destruct frac, ex; inversion H; reflexivity. }
  destruct r2 as [|c2 r2]; [simpl in E3; discriminate|].
  assert (Ascii.eqb c2 "." = false) as Hc2.
  { destruct (Ascii.eqb c2 ".") eqn:E; auto.
    apply Ascii.eqb_eq in E; subst c2. simpl in E3.
    inversion E3; subst. discriminate. }
  destruct r1 as [|c1 r1]; [simpl in E2; discriminate|].
  rewrite (scan_int_part_app x _ _ _ _ _ E1).
  pose proof (scan_frac_app x _ _ _ _ E2 Hc2) as F2.
  pose proof (scan_exp_app x _ _ _ _ E3 He) as F3.
  change ((c1 :: r1) ++ x) with (c1 :: r1 ++ x) in F2.
  change ((c2 :: r2) ++ x) with (c2 :: r2 ++ x) in F3.
  rewrite F2, F3.
  destruct frac, ex; inversion H; reflexivity.
Qed.

Lemma scan_keyword_of_number (x s : str) (p : json * str) :
  Json.scan_number s = Some p -> Json.scan_keyword (s ++ x) = None.
Proof.
  destruct s as [|a t]; [discriminate|].
  destruct a as [[] [] [] [] [] [] [] []]; try reflexivity;
    intros H; cbv in H; discriminate H.
Qed.

Lemma scan_atom_app (x s r : str) (v : json) (c : ascii) :
  Json.scan_atom s = Done (v, c :: r) ->
  delim c = true ->
  Json.scan_atom (s ++ x) = Done (v, c :: r ++ x).
Proof.
  unfold Json.scan_atom. intros H Hc.
  destruct (Json.scan_keyword s) as [p|] eqn:Ek.
  { inversion H; subst p; clear H. unfold Json.scan_keyword in Ek.
    destruct (Py.strip_prefix "null" s) as [r0|] eqn:E1.
    { inversion Ek; subst. apply strip_prefix_inv in E1; subst s.
      reflexivity. }
    destruct (Py.strip_prefix "true" s) as [r0|] eqn:E2.
    { inversion Ek; subst. apply strip_prefix_inv in E2; subst s.
      reflexivity. }
    destruct (Py.strip_prefix "false" s) as [r0|] eqn:E3;
      try discriminate.
    inversion Ek; subst. apply strip_prefix_inv in E3; subst s.
    reflexivity. }
  destruct (Json.scan_number s) as [p|] eqn:En.
  { inversion H; subst p; clear H.
    rewrite (scan_keyword_of_number x _ _ En).
    now rewrite (scan_number_app x _ _ _ _ En Hc). }
  destruct (Json.scan_constant s) as [p|] eqn:Ec; try discriminate.
  inversion H; subst p; clear H. unfold Json.scan_constant in Ec.
  destruct (Py.strip_prefix "NaN" s) as [r0|] eqn:E1.
  { inversion Ec; subst. apply strip_prefix_inv in E1; subst s.
    reflexivity. }
  destruct (Py.strip_prefix "Infinity" s) as [r0|] eqn:E2.
  { inversion Ec; subst. apply strip_prefix_inv in E2; subst s.
    reflexivity. }
  destruct (Py.strip_prefix "-Infinity" s) as [r0|] eqn:E3;
    try discriminate.
  inversion Ec; subst. apply strip_prefix_inv in E3; subst s.
  reflexivity.
Qed.

Section Extend.
Variable x : str.
Variables scan scan' : str -> outcome (json * str).
Hypothesis scan_nil : forall p, scan [] <> Done p.
Hypothesis scan_ext :
  forall s v r, scan s = Done (v, r) -> stable s r = true ->
                scan' (s ++ x) = Done (v, r ++ x).

Lemma scan_ext_delim (s r t : str) (v : json) (c : ascii) :
  scan s = Done (v, r) -> Json.skip_ws r = c :: t -> delim c = true ->
  scan' (s ++ x) = Done (v, r ++ x).
Proof.
  intros Hs Hr Hc. apply scan_ext; auto.
  unfold stable. rewrite (skip_ws_head_delim _ _ _ Hr Hc).
  apply orb_true_r.
Qed.

Lemma scan_ext_skip (s r t : str) (v : json) (c : ascii) :
  scan (Json.skip_ws s) = Done (v, r) ->
  Json.skip_ws r = c :: t -> delim c = true ->
  scan' (Json.skip_ws (s ++ x)) = Done (v, r ++ x).
Proof.
  intros Hs Hr Hc.
  destruct (Json.skip_ws s) as [|a u] eqn:E.
  - now elim (scan_nil (v, r)).
  - rewrite (skip_ws_cons_app _ _ x _ E).
    apply (scan_ext_delim (a :: u) r t v c); auto.
Qed.

Lemma object_members_ext (n : nat) :
  forall n' acc s v r,
    n <= n' ->
    Json.object_members scan n acc s = Done (v, r) ->
    Json.object_members scan' n' acc (s ++ x) = Done (v, r ++ x).
Proof.
  induction n as [|n IH]; intros n' acc s v r Hle H; simpl in H;
    try discriminate.
  destruct n' as [|n']; [lia|]. simpl.
  destruct (Json.scanstring s) as [[key r1]|] eqn:Ekey; try discriminate.
  rewrite (scanstring_app x _ _ _ Ekey).
  destruct (Json.skip_ws r1) as [|colon r2] eqn:E1; try discriminate.
  rewrite (skip_ws_cons_app _ _ x _ E1).
  destruct (Ascii.eqb colon ":"); try discriminate.
  destruct (scan (Json.skip_ws r2)) as [[v1 r3]| |] eqn:Ev;
    try discriminate.
  destruct (Json.skip_ws r3) as [|c r4] eqn:E3; try discriminate.
  destruct (Ascii.eqb c "}") eqn:Eclose.
  { apply Ascii.eqb_eq in Eclose; subst c.
    rewrite (scan_ext_skip _ _ _ _ _ Ev E3 eq_refl).
    rewrite (skip_ws_cons_app _ _ x _ E3). simpl.
    inversion H; subst; reflexivity. }
  destruct (Ascii.eqb c ",") eqn:Ecomma; try discriminate.
  apply Ascii.eqb_eq in Ecomma; subst c.
  rewrite (scan_ext_skip _ _ _ _ _ Ev E3 eq_refl).
  rewrite (skip_ws_cons_app _ _ x _ E3). simpl.
  destruct (Json.skip_ws r4) as [|q r5] eqn:E4; try discriminate.
  rewrite (skip_ws_cons_app _ _ x _ E4).
  destruct (Ascii.eqb q dquote); try discriminate.
  apply IH; auto. lia.
Qed.

Lemma JSONObject_ext (n n' : nat) (s r : str) (v : json) :
  n <= n' ->
  Json.JSONObject scan n s = Done (v, r) ->
  Json.JSONObject scan' n' (s ++ x) = Done (v, r ++ x).
Proof.
  intros Hle. unfold Json.JSONObject.
  destruct (Json.skip_ws s) as [|c t] eqn:E; try discriminate.
  rewrite (skip_ws_cons_app _ _ x _ E).
  destruct (Ascii.eqb c "}").
  { intros H; inversion H; subst; reflexivity. }
  destruct (Ascii.eqb c dquote); try discriminate.
  now apply object_members_ext.
Qed.

Lemma array_elements_ext (n : nat) :
  forall n' acc s v r,
    n <= n' ->
    Json.array_elements scan n acc s = Done (v, r) ->
    Json.array_elements scan' n' acc (s ++ x) = Done (v, r ++ x).
Proof.
  induction n as [|n IH]; intros n' acc s v r Hle H; simpl in H;
    try discriminate.
  destruct n' as [|n']; [lia|]. simpl.
  destruct (scan s) as [[v1 r1]| |] eqn:Ev; try discriminate.
  destruct (Json.skip_ws r1) as [|c r2] eqn:E1; try discriminate.
  destruct (Ascii.eqb c "]") eqn:Eclose.
  { apply Ascii.eqb_eq in Eclose; subst c.
    rewrite (scan_ext_delim _ _ _ _ _ Ev E1 eq_refl).
    rewrite (skip_ws_cons_app _ _ x _ E1). simpl.
    inversion H; subst; reflexivity. }
  destruct (Ascii.eqb c ",") eqn:Ecomma; try discriminate.
  apply Ascii.eqb_eq in Ecomma; subst c.
  rewrite (scan_ext_delim _ _ _ _ _ Ev E1 eq_refl).
  rewrite (skip_ws_cons_app _ _ x _ E1). simpl.
  destruct (Json.skip_ws r2) as [|a u] eqn:E2.
  - destruct n; simpl in H; try discriminate.
    destruct (scan []) as [p| |] eqn:En; try discriminate.
    now elim (scan_nil p).
  - rewrite (skip_ws_cons_app _ _ x _ E2).
    apply (IH n' (v1 :: acc) (a :: u)); auto. lia.
Qed.

Lemma JSONArray_ext (n n' : nat) (s r : str) (v : json) :
  n <= n' ->
  Json.JSONArray scan n s = Done (v, r) ->
  Json.JSONArray scan' n' (s ++ x) = Done (v, r ++ x).
Proof.
  intros Hle. unfold Json.JSONArray.
  destruct (Json.skip_ws s) as [|c t] eqn:E.
  - intros H. destruct n; simpl in H; try discriminate.
    destruct (scan []) as [p| |] eqn:En; try discriminate.
    now elim (scan_nil p).
  - rewrite (skip_ws_cons_app _ _ x _ E).
    destruct (Ascii.eqb c "]").
    { intros H; inversion H; subst; reflexivity. }
    apply (array_elements_ext n n' [] (c :: t)); auto.
Qed.
End Extend.

Lemma scan_once_nil (f : nat) (p : json * str) : Json.scan_once f [] <> Done p.
Proof. destruct f; discriminate. Qed.

Lemma scan_once_ext (x : str) (f : nat) :
  forall f' s v r,
    f <= f' ->
    Json.scan_once f s = Done (v, r) ->
    stable s r = true ->
    Json.scan_once f' (s ++ x) = Done (v, r ++ x).
Proof.
  induction f as [|f IH]; intros f' s v r Hle H Hst; simpl in H;
    try discriminate.
  destruct f' as [|f']; [lia|].
  destruct s as [|c t]; try discriminate. simpl.
  destruct (Ascii.eqb c dquote) eqn:Eq.
  { destruct (Json.scanstring t) as [[k r1]|] eqn:E; try discriminate.
    rewrite (scanstring_app x _ _ _ E). inversion H; subst; reflexivity. }
  destruct (Ascii.eqb c "{") eqn:Eo.
  { apply (JSONObject_ext x (Json.scan_once f) (Json.scan_once f')
             (scan_once_nil f)
             (fun s0 v0 r0 H0 Hs0 => IH f' s0 v0 r0 ltac:(lia) H0 Hs0)
             f f'); auto; lia. }
  destruct (Ascii.eqb c "[") eqn:Ea.
  { apply (JSONArray_ext x (Json.scan_once f) (Json.scan_once f')
             (scan_once_nil f)
             (fun s0 v0 r0 H0 Hs0 => IH f' s0 v0 r0 ltac:(lia) H0 Hs0)
             f f'); auto; lia. }
  unfold stable, opener in Hst. simpl in Hst. rewrite Eq, Eo, Ea in Hst.
  simpl in Hst. destruct r as [|c' r]; try discriminate.
  apply (scan_atom_app x (c :: t)); auto.
Qed.

(** Text appended to a JSON text that starts with a quote, a brace or a
    bracket either makes the whole invalid or leaves the value as it is. *)
Lemma loads_app (obj x : str) (v : json) :
  head_is opener obj = true ->
  Json.loads obj = Some v ->
  Json.loads (obj ++ x) = None \/ Json.loads (obj ++ x) = Some v.
Proof.
  intros Hc.
  assert (Json.skip_ws obj = obj /\ Json.skip_ws (obj ++ x) = obj ++ x)
    as [Hs Hsx].
  { destruct obj as [|c t]; try discriminate. simpl in Hc.
    simpl. now rewrite (opener_not_ws c Hc). }
  unfold Json.loads, Json.decode. rewrite Hs, Hsx.
  destruct (Json.scan_once (S (List.length obj)) obj)
    as [[v0 r]| |] eqn:E; try discriminate.
  destruct (Json.skip_ws r) eqn:Er; try discriminate.
  intros H; inversion H; subst v0; clear H.
  assert (S (List.length obj) <= S (List.length (obj ++ x))) as Hle
    by (rewrite length_app; lia).
  rewrite (scan_once_ext x _ _ _ _ _ Hle E).
  - destruct (Json.skip_ws (r ++ x)); auto.
  - unfold stable. now rewrite Hc.
Qed.

(** ** A reply with prose after the object *)

Lemma lstrip_app_stop (w u : str) (c : ascii) :
  Py.isspace c = false -> Py.lstrip (w ++ c :: u) = Py.lstrip w ++ c :: u.
Proof.
  intros Hc. induction w as [|a w IH]; simpl.
  - now rewrite Hc.
  - destruct (Py.isspace a); auto.
Qed.

Lemma in_lstrip (a : ascii) (s : str) : In a (Py.lstrip s) -> In a s.
Proof.
  induction s as [|c s IH]; simpl; auto.
  destruct (Py.isspace c); simpl; auto.
Qed.

Lemma lacks_rstrip (c : ascii) (s : str) :
  lacks c s = true -> lacks c (Py.rstrip s) = true.
Proof.
  unfold lacks, Py.rstrip. rewrite !forallb_forall.
  intros H a Ha. apply H.
  apply in_rev in Ha. apply in_lstrip in Ha. now apply in_rev.
Qed.

Lemma strip_braced (body prose : str) :
  Py.strip (("{"%char :: body ++ ["}"%char]) ++ prose)
  = ("{"%char :: body ++ ["}"%char]) ++ Py.rstrip prose.
Proof.
  unfold Py.strip. change (Py.lstrip (("{"%char :: body ++ ["}"%char]) ++ prose))
    with (("{"%char :: body ++ ["}"%char]) ++ prose).
  unfold Py.rstrip. rewrite rev_app_distr.
  change (rev ("{"%char :: body ++ ["}"%char]))
    with (rev (body ++ ["}"%char]) ++ ["{"%char]).
  rewrite rev_app_distr. simpl rev at 2. rewrite <- app_assoc.
  simpl app at 2.
  rewrite lstrip_app_stop by reflexivity.
  rewrite rev_app_distr. simpl rev at 1.
  rewrite rev_app_distr, rev_involutive. simpl.
  now rewrite <- !app_assoc.
Qed.

Lemma strip_framed (a z : ascii) (mid w : str) :
  Py.isspace a = false -> Py.isspace z = false ->
  Py.strip ((a :: mid ++ [z]) ++ w) = (a :: mid ++ [z]) ++ Py.rstrip w.
Proof.
  intros Ha Hz.
  assert (rev (a :: mid ++ [z]) = z :: rev mid ++ [a]) as Hrev.
  { simpl. now rewrite rev_app_distr. }
  unfold Py.strip.
  assert (Py.lstrip ((a :: mid ++ [z]) ++ w) = (a :: mid ++ [z]) ++ w) as ->.
  { simpl. now rewrite Ha. }
  unfold Py.rstrip.
  rewrite rev_app_distr, Hrev, lstrip_app_stop by assumption.
  now rewrite rev_app_distr, <- Hrev, rev_involutive.
Qed.

(** C7, as stated, fails: when the prose after the object contains a
    closing brace, the text from the first ["{"] to the last ["}"] is not
    the object, it does not parse, and the recovered mapping is empty. *)
Lemma prose_with_closing_brace_loses_object :
  let obj := js "{'taxId': 12}" in
  let prose := of_string " -- done :}" in
  Json.loads obj = Some (JDict [(of_string "taxId", JInt 12)]) /\
  Json.loads (obj ++ prose) = None /\
  Re.search_braces (obj ++ prose) = Some (obj ++ prose) /\
  Rev223536.brace_candidate (Py.strip (obj ++ prose)) = Some (obj ++ prose) /\
  Rev020545.recover_text (obj ++ prose) = JDict [] /\
  Rev223536.recover (Py.strip (obj ++ prose)) = JDict [].
Proof. repeat split; reflexivity. Qed.

(** C7, amended. For every reply that consists of a valid JSON object
    followed by prose without a closing brace, the text from the first
    ["{"] to the last ["}"] is the object, and the recovered value is the
    value of the object alone, in both revisions. *)
Theorem trailing_prose_recovers_object (obj prose : str) (v : json) :
  braced obj = true ->
  Json.loads obj = Some v ->
  lacks "}"%char prose = true ->
  Re.search_braces (obj ++ prose) = Some obj /\
  Rev020545.recover_text (obj ++ prose) = v /\
  Rev223536.brace_candidate (Py.strip (obj ++ prose)) = Some obj /\
  Rev223536.recover (Py.strip (obj ++ prose)) = v.
Proof.
  intros Hb Hobj Hprose.
  assert (head_is opener obj = true) as Hop.
  { destruct obj as [|c t]; try discriminate. simpl in Hb.
    apply andb_true_iff in Hb as [Hc _].
    apply Ascii.eqb_eq in Hc; subst c. reflexivity. }
  apply braced_inv in Hb as [body ->].
  set (obj := "{"%char :: body ++ ["}"%char]) in *.
  assert (Re.search_braces (obj ++ prose) = Some obj) as Hsearch.
  { apply (search_braces_block [] body prose); auto. }
  assert (Rev223536.brace_candidate (Py.strip (obj ++ prose)) = Some obj)
    as Hcand.
  { unfold obj. rewrite strip_braced.
    apply (brace_candidate_block [] body (Py.rstrip prose)); auto.
    now apply lacks_rstrip. }
  repeat split; auto.
  - unfold Rev020545.recover_text.
    destruct (loads_app obj prose v Hop Hobj) as [-> | ->]; auto.
    now rewrite Hsearch, Hobj.
  - unfold Rev223536.recover, Rev223536.stage2. rewrite Hcand, Hobj.
    unfold obj at 1 2. rewrite strip_braced. fold obj.
    destruct (loads_app obj (Py.rstrip prose) v Hop Hobj) as [-> | ->];
      reflexivity.
Qed.

Lemma trailing_prose_recovers_object_witness :
  Rev020545.recover_text
    (js "{'taxId': '12 34'}" ++ of_string " I hope this helps.")
  = JDict [(of_string "taxId", JStr "12 34")].
Proof.
  apply (trailing_prose_recovers_object
           (js "{'taxId': '12 34'}") (of_string " I hope this helps.")
           (JDict [(of_string "taxId", JStr "12 34")]));
    reflexivity.
Defined.

(** ** A reply wrapped in code fences *)

(** C9. A valid JSON object wrapped in Markdown code fences (an opening
    fence that starts with three backquotes, fences without braces) is
    recovered as the same value as the unwrapped object, and the rest of
    the pipeline gives the same answer on both.  This holds in the latest
    revision, and in revision 20251212223536 as well. *)
Theorem fenced_reply_recovers_same
  (obj opening closing : str) (m : dict) :
  braced obj = true ->
  Json.loads obj = Some (JDict m) ->
  Py.startswith "```" opening = true ->
  brace_free opening = true ->
  brace_free closing = true ->
  (Rev020545.recover_text (opening ++ obj ++ closing)
   = Rev020545.recover_text obj /\
   Rev020545.recover_text (opening ++ obj ++ closing) = JDict m /\
   (forall raw_text,
      Rev020545.process_reply raw_text (JStr (opening ++ obj ++ closing))
      = Rev020545.process_reply raw_text (JStr obj))) /\
  (Rev223536.recover (Py.strip (opening ++ obj ++ closing))
   = Rev223536.recover (Py.strip obj) /\
   Rev223536.recover (Py.strip (opening ++ obj ++ closing)) = JDict m /\
   (forall raw_text fields,
      Rev223536.process_reply raw_text fields
        (JStr (opening ++ obj ++ closing))
      = Rev223536.process_reply raw_text fields (JStr obj))).
Proof.
  intros Hb Hobj Hfence Hopen Hclose.
  apply braced_inv in Hb as [body ->].
  unfold brace_free in Hopen, Hclose.
  apply andb_true_iff in Hopen as [Hopen _].
  apply andb_true_iff in Hclose as [_ Hclose].
  set (obj := "{"%char :: body ++ ["}"%char]) in *.
  assert (forall y, Json.loads (opening ++ y) = None) as Hnot.
  { intros y. apply startswith_inv in Hfence as [rest ->].
    exact (loads_backquote _). }
  assert (Rev020545.recover_text (opening ++ obj ++ closing) = JDict m)
    as Hw.
  { unfold Rev020545.recover_text. rewrite Hnot.
    unfold obj. rewrite search_braces_block by assumption.
    fold obj. now rewrite Hobj. }
  assert (Rev020545.recover_text obj = JDict m) as Hu.
  { unfold Rev020545.recover_text. now rewrite Hobj. }
  assert (Py.strip (opening ++ obj ++ closing)
          = opening ++ obj ++ Py.rstrip closing) as Hsw.
  { apply startswith_inv in Hfence as [rest ->].
    change (of_string "```" ++ rest)
      with ("`"%char :: (of_string "``" ++ rest)).
    replace (("`"%char :: of_string "``" ++ rest) ++ obj ++ closing)
      with (("`"%char :: ((of_string "``" ++ rest) ++ "{"%char :: body)
               ++ ["}"%char]) ++ closing)
      by (unfold obj; simpl; now rewrite <- !app_assoc).
    rewrite strip_framed by reflexivity.
    unfold obj; simpl; now rewrite <- !app_assoc. }
  assert (Py.strip obj = obj) as Hso.
  { rewrite <- (app_nil_r obj). unfold obj.
    rewrite strip_framed by reflexivity. reflexivity. }
  assert (Rev223536.recover (Py.strip (opening ++ obj ++ closing))
          = JDict m) as Hw2.
  { rewrite Hsw. unfold Rev223536.recover, Rev223536.stage2.
    rewrite Hnot. unfold obj at 2.
    rewrite brace_candidate_block; auto using lacks_rstrip.
    fold obj. rewrite Hobj.
    apply startswith_inv in Hfence as [rest ->]. reflexivity. }
  assert (Rev223536.recover (Py.strip obj) = JDict m) as Hu2.
  { rewrite Hso. unfold Rev223536.recover. rewrite Hobj. reflexivity. }
  split; repeat split.
  - now rewrite Hw, Hu.
  - exact Hw.
  - intros raw_text.
    unfold Rev020545.process_reply, Rev020545.recover. cbn [bind].
    now rewrite Hw, Hu.
  - now rewrite Hw2, Hu2.
  - exact Hw2.
  - intros raw_text fields.
    unfold Rev223536.process_reply, Rev223536.strip_reply,
      Rev223536.process_text. cbn [bind].
    now rewrite Hw2, Hu2.
Qed.

Lemma fenced_reply_recovers_same_witness :
  Rev223536.process_reply "" tax_fields
    (JStr (lines ["```json"; ""] ++ js "{'taxId': '12 34'}"
           ++ lines [""; "```"]))
  = Rev223536.process_reply "" tax_fields (JStr (js "{'taxId': '12 34'}")).
Proof.
  apply (fenced_reply_recovers_same
           (js "{'taxId': '12 34'}") (lines ["```json"; ""])
           (lines [""; "```"]) [(of_string "taxId", JStr "12 34")]);
    reflexivity.
Defined.

(** ** What the fallback finds *)


Lemma findall_d11_from_0 (c : ascii) (s : str) :
  Re.findall_d11_from 0 (c :: s)
  = if Re.starts_with_digits 11 (c :: s)
    then firstn 11 (c :: s) :: Re.findall_d11_from 10 s
    else Re.findall_d11_from 0 s.
Proof. reflexivity. Qed.











(** ** The decoder never runs out of fuel

    [Json.decode] gives the scanner one unit of fuel more than the text
    has characters; every nested value and every member of an object or
    array consumes at least one character, so [None] from [Json.loads] is
    always a decoding error. *)

Lemma skip_ws_length (s : str) :
  List.length (Json.skip_ws s) <= List.length s.
Proof.
  induction s as [|c s IH]; simpl; auto.
  destruct (Json.isws c); simpl; lia.
Qed.

Lemma skip_ws_cons_length (s t : str) (c : ascii) :
  Json.skip_ws s = c :: t -> List.length t < List.length s.
Proof.
  intros H. pose proof (skip_ws_length s) as Hl. rewrite H in Hl.
  simpl in Hl. lia.
Qed.

Lemma scan_chars_length (s : str) :
  forall st pending out v r,
    Json.scan_chars st pending out s = Some (v, r) ->
    List.length r < List.length s.
Proof.
  induction s as [|c s IH]; intros st pending out v r H; simpl in *;
    try discriminate.
  assert (forall st' p' o', Json.scan_chars st' p' o' s = Some (v, r) ->
            List.length r < S (List.length s)) as Hstep.
  { intros st' p' o' H'. apply IH in H'. lia. }
  destruct st.
  - destruct (Ascii.eqb c dquote).
    { inversion H; subst; lia. }
    destruct (Ascii.eqb c "\"); eauto.
    destruct (Py.code c <? 32)%N; try discriminate; eauto.
  - destruct (Ascii.eqb c "u"); eauto.
    destruct (Json.unescape c); try discriminate; eauto.
  - destruct (Json.hex_val c); try discriminate.
    destruct k as [|[|[|[|k]]]]; eauto.
    destruct (Json.emit_unit pending (acc * 16 + n) out); eauto.
Qed.

Lemma span_digits_length (s ds r : str) :
  Json.span_digits s = (ds, r) -> List.length r <= List.length s.
Proof.
  revert ds; induction s as [|a s IH]; simpl; intros ds H.
  - inversion H; auto.
  - destruct (Py.isdigit a).
    + destruct (Json.span_digits s) as [ds' r'].
      inversion H; subst. specialize (IH _ eq_refl). lia.
    + inversion H; subst; auto.
Qed.

Lemma scan_int_part_length (s ip r : str) (neg : bool) :
  Json.scan_int_part s = Some (neg, ip, r) -> List.length r < List.length s.
Proof.
  assert (forall b t,
    match t with
    | a :: u =>
        if Ascii.eqb a "0" then Some (b, [a], u)
        else if Py.isdigit a then
          let '(ds, r0) := Json.span_digits u in Some (b, a :: ds, r0)
        else None
    | [] => None
    end = Some (neg, ip, r) -> List.length r < List.length t) as Hcore.
  { intros b [|a u]; try discriminate.
    destruct (Ascii.eqb a "0").
    { intros H; inversion H; subst; simpl; lia. }
    destruct (Py.isdigit a); try discriminate.
    destruct (Json.span_digits u) as [ds r0] eqn:E.
    intros H; inversion H; subst.
    apply span_digits_length in E. simpl; lia. }
  unfold Json.scan_int_part. destruct s as [|a t]; try discriminate.
  destruct (Ascii.eqb a "-").
  - intros H. apply Hcore in H. simpl; lia.
  - apply (Hcore false (a :: t)).
Qed.

Lemma scan_frac_length (s r : str) (frac : option str) :
  Json.scan_frac s = (frac, r) -> List.length r <= List.length s.
Proof.
  unfold Json.scan_frac. destruct s as [|a t].
  - intros H; inversion H; auto.
  - destruct (Ascii.eqb a ".").
    + destruct (Json.span_digits t) as [[|d ds] r0] eqn:E;
        intros H; inversion H; subst; auto.
      apply span_digits_length in E. simpl; lia.
    + intros H; inversion H; auto.
Qed.

Lemma scan_exp_length (s r : str) (ex : option Z) :
  Json.scan_exp s = (ex, r) -> List.length r <= List.length s.
Proof.
  unfold Json.scan_exp. destruct s as [|a t].
  - intros H; inversion H; auto.
  - destruct (Ascii.eqb a "e" || Ascii.eqb a "E").
    + destruct (Json.scan_sign t) as [neg t1] eqn:Es.
      assert (List.length t1 <= List.length t) as Ht.
      { unfold Json.scan_sign in Es. destruct t as [|b u].
        - inversion Es; auto.
        - destruct (Ascii.eqb b "-"); [inversion Es; simpl; lia|].
          destruct (Ascii.eqb b "+"); inversion Es; simpl; lia. }
      destruct (Json.span_digits t1) as [[|d ds] r0] eqn:E;
        intros H; inversion H; subst; auto.
      apply span_digits_length in E. simpl; lia.
    + intros H; inversion H; auto.
Qed.

Lemma scan_number_length (s r : str) (v : json) :
  Json.scan_number s = Some (v, r) -> List.length r < List.length s.
Proof.
  unfold Json.scan_number.
  destruct (Json.scan_int_part s) as [[[neg ip] r1]|] eqn:E1;
    try discriminate.
  destruct (Json.scan_frac r1) as [frac r2] eqn:E2.
  destruct (Json.scan_exp r2) as [ex r3] eqn:E3.
  apply scan_int_part_length in E1. apply scan_frac_length in E2.
  apply scan_exp_length in E3.
  destruct frac, ex; intros H; inversion H; subst; lia.
Qed.

Lemma strip_prefix_length (p s r : str) :
  Py.strip_prefix p s = Some r ->
  List.length s = List.length p + List.length r.
Proof.
  intros H. apply strip_prefix_inv in H. subst. apply length_app.
Qed.

Lemma scan_atom_length (s r : str) (v : json) :
  Json.scan_atom s = Done (v, r) -> List.length r < List.length s.
Proof.
  unfold Json.scan_atom, Json.scan_keyword, Json.scan_constant.
  destruct (Py.strip_prefix "null" s) eqn:E1.
  { intros H; inversion H; subst. apply strip_prefix_length in E1.
    rewrite E1. simpl. lia. }
  destruct (Py.strip_prefix "true" s) eqn:E2.
  { intros H; inversion H; subst. apply strip_prefix_length in E2.
    rewrite E2. simpl. lia. }
  destruct (Py.strip_prefix "false" s) eqn:E3.
  { intros H; inversion H; subst. apply strip_prefix_length in E3.
    rewrite E3. simpl. lia. }
  destruct (Json.scan_number s) as [[v0 r0]|] eqn:En.
  { intros H; inversion H; subst. now apply scan_number_length in En. }
  destruct (Py.strip_prefix "NaN" s) eqn:E4.
  { intros H; inversion H; subst. apply strip_prefix_length in E4.
    rewrite E4. simpl. lia. }
  destruct (Py.strip_prefix "Infinity" s) eqn:E5.
  { intros H; inversion H; subst. apply strip_prefix_length in E5.
    rewrite E5. simpl. lia. }
  destruct (Py.strip_prefix "-Infinity" s) eqn:E6; try discriminate.
  intros H; inversion H; subst. apply strip_prefix_length in E6.
  rewrite E6. simpl. lia.
Qed.

Lemma scan_atom_fuel (s : str) : Json.scan_atom s <> OutOfFuel.
Proof.
  unfold Json.scan_atom.
  destruct (Json.scan_keyword s); try discriminate.
  destruct (Json.scan_number s); try discriminate.
  destruct (Json.scan_constant s); discriminate.
Qed.

Section Fuel.
Variable scan : str -> outcome (json * str).
Variable bound : nat.
Hypothesis scan_length :
  forall s v r, scan s = Done (v, r) -> List.length r < List.length s.
Hypothesis scan_fuel :
  forall s, List.length s < bound -> scan s <> OutOfFuel.

Lemma object_members_progress (n : nat) :
  forall acc s,
    (forall v r, Json.object_members scan n acc s = Done (v, r) ->
                 List.length r < List.length s) /\
    (List.length s < n -> List.length s < bound ->
     Json.object_members scan n acc s <> OutOfFuel).
Proof.
  induction n as [|n IH]; intros acc s; simpl.
  { split; [discriminate | lia]. }
  destruct (Json.scanstring s) as [[key r1]|] eqn:Ekey;
    [|split; discriminate].
  apply scan_chars_length in Ekey.
  destruct (Json.skip_ws r1) as [|colon r2] eqn:E1; [split; discriminate|].
  apply skip_ws_cons_length in E1.
  destruct (Ascii.eqb colon ":"); [|split; discriminate].
  pose proof (skip_ws_length r2) as H2.
  destruct (scan (Json.skip_ws r2)) as [[v1 r3]| |] eqn:Ev.
  - apply scan_length in Ev.
    destruct (Json.skip_ws r3) as [|c r4] eqn:E3; [split; discriminate|].
    apply skip_ws_cons_length in E3.
    destruct (Ascii.eqb c "}").
    { split; [|discriminate]. intros v r H; inversion H; subst. lia. }
    destruct (Ascii.eqb c ","); [|split; discriminate].
    destruct (Json.skip_ws r4) as [|q r5] eqn:E4; [split; discriminate|].
    apply skip_ws_cons_length in E4.
    destruct (Ascii.eqb q dquote); [|split; discriminate].
    destruct (IH (Dict.set key v1 acc) r5) as [IHl IHf]. split.
    + intros v r H. apply IHl in H. lia.
    + intros Hn Hb. apply IHf; lia.
  - split; discriminate.
  - split; [discriminate|]. intros Hn Hb _.
    apply (scan_fuel (Json.skip_ws r2)); auto. lia.
Qed.

Lemma array_elements_progress (n : nat) :
  forall acc s,
    (forall v r, Json.array_elements scan n acc s = Done (v, r) ->
                 List.length r < List.length s) /\
    (List.length s < n -> List.length s < bound ->
     Json.array_elements scan n acc s <> OutOfFuel).
Proof.
  induction n as [|n IH]; intros acc s; simpl.
  { split; [discriminate | lia]. }
  destruct (scan s) as [[v1 r1]| |] eqn:Ev.
  - apply scan_length in Ev.
    destruct (Json.skip_ws r1) as [|c r2] eqn:E1; [split; discriminate|].
    apply skip_ws_cons_length in E1.
    destruct (Ascii.eqb c "]").
    { split; [|discriminate]. intros v r H; inversion H; subst. lia. }
    destruct (Ascii.eqb c ","); [|split; discriminate].
    pose proof (skip_ws_length r2) as H2.
    destruct (IH (v1 :: acc) (Json.skip_ws r2)) as [IHl IHf]. split.
    + intros v r H. apply IHl in H. lia.
    + intros Hn Hb. apply IHf; lia.
  - split; discriminate.
  - split; [discriminate|]. intros Hn Hb _.
    now apply (scan_fuel s).
Qed.

Lemma JSONObject_progress (n : nat) (s : str) :
  (forall v r, Json.JSONObject scan n s = Done (v, r) ->
               List.length r < S (List.length s)) /\
  (List.length s < n -> List.length s < bound ->
   Json.JSONObject scan n s <> OutOfFuel).
Proof.
  unfold Json.JSONObject.
  destruct (Json.skip_ws s) as [|c t] eqn:E; [split; discriminate|].
  apply skip_ws_cons_length in E.
  destruct (Ascii.eqb c "}").
  { split; [|discriminate]. intros v r H; inversion H; subst. lia. }
  destruct (Ascii.eqb c dquote); [|split; discriminate].
  destruct (object_members_progress n [] t) as [Hl Hf]. split.
  - intros v r H. apply Hl in H. lia.
  - intros Hn Hb. apply Hf; lia.
Qed.

Lemma JSONArray_progress (n : nat) (s : str) :
  (forall v r, Json.JSONArray scan n s = Done (v, r) ->
               List.length r < S (List.length s)) /\
  (List.length s < n -> List.length s < bound ->
   Json.JSONArray scan n s <> OutOfFuel).
Proof.
  unfold Json.JSONArray. pose proof (skip_ws_length s) as Hs.
  destruct (Json.skip_ws s) as [|c t] eqn:E.
  - destruct (array_elements_progress n [] []) as [Hl Hf]. split.
    + intros v r H. apply Hl in H. simpl in H. lia.
    + intros Hn Hb. apply Hf; simpl; lia.
  - destruct (Ascii.eqb c "]").
    { split; [|discriminate]. intros v r H; inversion H; subst.
      simpl in Hs. lia. }
    destruct (array_elements_progress n [] (c :: t)) as [Hl Hf]. split.
    + intros v r H. apply Hl in H. lia.
    + intros Hn Hb. apply Hf; lia.
Qed.
End Fuel.

Lemma scan_once_progress (f : nat) :
  forall s,
    (forall v r, Json.scan_once f s = Done (v, r) ->
                 List.length r < List.length s) /\
    (List.length s < f -> Json.scan_once f s <> OutOfFuel).
Proof.
  induction f as [|f IH]; intros s; simpl.
  { split; [discriminate | lia]. }
  destruct s as [|c t]; [split; discriminate|].
  destruct (Ascii.eqb c dquote).
  { destruct (Json.scanstring t) as [[k r1]|] eqn:E; [|split; discriminate].
    apply scan_chars_length in E. split; [|discriminate].
    intros v r H; inversion H; subst. simpl; lia. }
  assert (forall s0 v r, Json.scan_once f s0 = Done (v, r) ->
            List.length r < List.length s0) as Hlen.
  { intros s0. apply IH. }
  assert (forall s0, List.length s0 < f -> Json.scan_once f s0 <> OutOfFuel)
    as Hfuel.
  { intros s0. apply IH. }
  destruct (Ascii.eqb c "{").
  { destruct (JSONObject_progress _ f Hlen Hfuel f t) as [Hl Hf].
    split; simpl; auto. intros Hn. apply Hf; lia. }
  destruct (Ascii.eqb c "[").
  { destruct (JSONArray_progress _ f Hlen Hfuel f t) as [Hl Hf].
    split; simpl; auto. intros Hn. apply Hf; lia. }
  split.
  - intros v r. apply scan_atom_length.
  - intros _. apply scan_atom_fuel.
Qed.

(** The decoder's fuel is enough for every text. *)
Theorem decode_fuel_suffices (s : str) : Json.decode s <> OutOfFuel.
Proof.
  unfold Json.decode.
  destruct (scan_once_progress (S (List.length (Json.skip_ws s)))
              (Json.skip_ws s)) as [_ Hf].
  destruct (Json.scan_once _ _) as [[v r]| |].
  - destruct (Json.skip_ws r); discriminate.
  - discriminate.
  - now elim Hf; [lia|].
Qed.

(** [Json.loads] fails exactly on a decoding error. *)
Corollary loads_none_is_error (s : str) :
  Json.loads s = None <-> Json.decode s = Fail.
Proof.
  unfold Json.loads. pose proof (decode_fuel_suffices s) as H.
  destruct (Json.decode s); split; congruence.
Qed.

(** * Further properties of the revisions *)

(** ** The widest brace-delimited block *)

Lemma first_occurrence (c : ascii) (s : str) :
  lacks c s = true \/
  exists pre rest, s = pre ++ c :: rest /\ lacks c pre = true.
Proof.
  unfold lacks. induction s as [|a s IH]; simpl; auto.
  destruct (Ascii.eqb a c) eqn:E; simpl.
  - right. apply Ascii.eqb_eq in E; subst a. exists [], s. auto.
  - destruct IH as [IH | (pre & rest & -> & Hpre)]; auto.
    right. exists (a :: pre), rest. simpl. rewrite E. auto.
Qed.

Lemma last_occurrence (c : ascii) (s : str) :
  lacks c s = true \/
  exists body post, s = body ++ c :: post /\ lacks c post = true.
Proof.
  unfold lacks. induction s as [|a s IH]; simpl; auto.
  destruct IH as [IH | (body & post & -> & Hpost)].
  - destruct (Ascii.eqb a c) eqn:E; simpl; auto.
    right. apply Ascii.eqb_eq in E; subst a. exists [], s. auto.
  - right. exists (a :: body), post. auto.
Qed.

Lemma find_none (c : ascii) (s : str) :
  lacks c s = true -> Py.find c s = None.
Proof.
  unfold lacks. induction s as [|a s IH]; simpl; auto.
  intros H. apply andb_true_iff in H as [Ha Hs].
  apply negb_true_iff in Ha. now rewrite Ha, IH.
Qed.

Lemma rfind_bound (c : ascii) (s : str) (i : nat) :
  Py.rfind c s = Some i -> i < List.length s.
Proof.
  revert i; induction s as [|a s IH]; simpl; intros i; try discriminate.
  destruct (Py.rfind c s) as [j|].
  - intros H; inversion H; subst. specialize (IH j eq_refl). lia.
  - destruct (Ascii.eqb a c); intros H; inversion H; lia.
Qed.

Lemma rfind_app_lacks (c : ascii) (s x : str) :
  lacks c x = true -> Py.rfind c (s ++ x) = Py.rfind c s.
Proof.
  intros Hx. induction s as [|a s IH]; simpl.
  - now apply rfind_none.
  - now rewrite IH.
Qed.

Lemma search_braces_no_open (s : str) :
  lacks "{"%char s = true -> Re.search_braces s = None.
Proof.
  intros H. rewrite <- (app_nil_r s). now rewrite search_braces_skip.
Qed.

Lemma search_braces_no_close (s : str) :
  lacks "}"%char s = true -> Re.search_braces s = None.
Proof.
  unfold lacks. induction s as [|a s IH]; simpl; auto.
  intros H. apply andb_true_iff in H as [_ Hs].
  rewrite (upto_last_close_none s Hs), (IH Hs).
  now destruct (Ascii.eqb a "{").
Qed.

(** The two ways of cutting the block out of a text: both find nothing,
    or the text is a prefix without ["{"], the block, and a suffix
    without ["}"], and both find the block. *)
Lemma block_cases (s : str) :
  (Re.search_braces s = None /\ Rev223536.brace_candidate s = None) \/
  exists pre body post,
    s = pre ++ ("{"%char :: body ++ ["}"%char]) ++ post /\
    lacks "{"%char pre = true /\ lacks "}"%char post = true /\
    Re.search_braces s = Some ("{"%char :: body ++ ["}"%char]) /\
    Rev223536.brace_candidate s = Some ("{"%char :: body ++ ["}"%char]).
Proof.
  destruct (first_occurrence "{" s) as [Hno | (pre & rest & -> & Hpre)].
  { left. rewrite search_braces_no_open by assumption.
    unfold Rev223536.brace_candidate. now rewrite find_none. }
  destruct (last_occurrence "}" rest) as [Hno | (body & post & -> & Hpost)].
  - left. rewrite search_braces_skip by assumption.
    assert (Re.search_braces ("{"%char :: rest) = None) as ->.
    { simpl. rewrite (upto_last_close_none rest Hno).
      now apply search_braces_no_close. }
    unfold Rev223536.brace_candidate.
    rewrite find_skip by assumption.
    rewrite (rfind_app_lacks "}" pre ("{"%char :: rest)) by exact Hno.
    destruct (Py.rfind "}" pre) as [l|] eqn:E; auto.
    apply rfind_bound in E.
    replace (List.length pre <? l)%nat with false; auto.
    symmetry. apply Nat.ltb_ge. lia.
  - right. exists pre, body, post.
    replace (pre ++ "{"%char :: body ++ "}"%char :: post)
      with (pre ++ ("{"%char :: body ++ ["}"%char]) ++ post)
      by (simpl; now rewrite <- app_assoc).
    rewrite search_braces_block, brace_candidate_block by assumption.
    auto.
Qed.

(** X2. The pattern [\{.*\}] (with [DOTALL]) finds exactly what [find]
    and [rfind] cut out in revision 20251212223536: the text from the
    first ["{"] to the last ["}"], when the last ["}"] comes after the
    first ["{"], and nothing otherwise.  What it finds starts with ["{"],
    ends with ["}"], has no ["{"] before it and no ["}"] after it. *)
Theorem widest_block_is_first_to_last (s : str) :
  Re.search_braces s = Rev223536.brace_candidate s /\
  forall block,
    Re.search_braces s = Some block ->
    braced block = true /\
    exists pre post,
      s = pre ++ block ++ post /\
      lacks "{"%char pre = true /\ lacks "}"%char post = true.
Proof.
  destruct (block_cases s)
    as [[Hs Hc] | (pre & body & post & Hs & Hpre & Hpost & Hfound & Hc)].
  - split; [congruence|]. intros block H. congruence.
  - split; [congruence|]. intros block H.
    rewrite Hfound in H. inversion H; subst block. split.
    + simpl. rewrite rev_app_distr. reflexivity.
    + exists pre, post. auto.
Qed.


(** ** Revision 20251212223536: coercion field by field *)













(** ** What [strip] removes *)

Lemma forallb_rev {A : Type} (f : A -> bool) (l : list A) :
  forallb f (rev l) = forallb f l.
Proof.
  destruct (forallb f l) eqn:E.
  - apply forallb_forall. intros a Ha. apply in_rev in Ha.
    rewrite forallb_forall in E. auto.
  - destruct (forallb f (rev l)) eqn:E'; auto.
    rewrite <- E. symmetry. apply forallb_forall. intros a Ha.
    rewrite forallb_forall in E'. apply E'. now apply -> in_rev.
Qed.

Lemma lstrip_split (s : str) :
  exists l, s = l ++ Py.lstrip s /\ forallb Py.isspace l = true /\
            head_is Py.isspace (Py.lstrip s) = false.
Proof.
  induction s as [|c s IH]; simpl.
  - exists []. auto.
  - destruct (Py.isspace c) eqn:E.
    + destruct IH as (l & Hs & Hl & Hh).
      exists (c :: l). simpl. rewrite E, Hl. repeat split; auto.
      now rewrite <- Hs.
    + exists []. simpl. auto.
Qed.

Lemma rstrip_split (s : str) :
  exists r, s = Py.rstrip s ++ r /\ forallb Py.isspace r = true /\
            head_is Py.isspace (rev (Py.rstrip s)) = false.
Proof.
  unfold Py.rstrip. destruct (lstrip_split (rev s)) as (l & Hs & Hl & Hh).
  exists (rev l). repeat split.
  - rewrite <- rev_app_distr, <- Hs. symmetry. apply rev_involutive.
  - now rewrite forallb_rev.
  - now rewrite rev_involutive.
Qed.

Lemma strip_split (t : str) :
  exists l r,
    t = l ++ Py.strip t ++ r /\
    forallb Py.isspace l = true /\ forallb Py.isspace r = true /\
    head_is Py.isspace (Py.strip t) = false /\
    head_is Py.isspace (rev (Py.strip t)) = false.
Proof.
  unfold Py.strip.
  destruct (lstrip_split t) as (l & Ht & Hl & Hh).
  destruct (rstrip_split (Py.lstrip t)) as (r & Hs & Hr & Hh').
  exists l, r. repeat split; auto.
  - now rewrite <- Hs.
  - destruct (Py.rstrip (Py.lstrip t)) as [|c u] eqn:E; auto.
    rewrite Hs in Hh. exact Hh.
Qed.

(** X7. In revision 20251212223536 a text under a field that is not
    declared integer is returned with the white space at its two ends
    removed and nothing else changed: the result neither starts nor ends
    with white space, and the original is the result between two runs of
    white space. *)
Theorem text_field_is_trimmed (expected : list (str * str)) (t : str) :
  Rev223536.expected_integer expected = false ->
  exists kept l r,
    Rev223536.coerce_value expected (JStr t) = Ok (JStr kept) /\
    t = l ++ kept ++ r /\
    forallb Py.isspace l = true /\ forallb Py.isspace r = true /\
    head_is Py.isspace kept = false /\
    head_is Py.isspace (rev kept) = false.
Proof.
  intros He. destruct (strip_split t) as (l & r & Ht & Hl & Hr & H1 & H2).
  exists (Py.strip t), l, r. repeat split; auto.
  unfold Rev223536.coerce_value. now rewrite He.
Qed.

Lemma text_field_is_trimmed_witness :
  exists kept l r,
    Rev223536.coerce_value [(of_string "type", of_string "string")]
      (JStr (lines [" Ali  Veli "; ""])) = Ok (JStr kept) /\
    lines [" Ali  Veli "; ""] = l ++ kept ++ r /\
    forallb Py.isspace l = true /\ forallb Py.isspace r = true /\
    head_is Py.isspace kept = false /\
    head_is Py.isspace (rev kept) = false.
Proof.
  apply (text_field_is_trimmed [(of_string "type", of_string "string")]).
  reflexivity.
Defined.

Lemma lstrip_ws_app (l x : str) :
  forallb Py.isspace l = true -> Py.lstrip (l ++ x) = Py.lstrip x.
Proof.
  induction l as [|c l IH]; simpl; auto.
  intros H. apply andb_true_iff in H as [Hc Hl]. rewrite Hc. auto.
Qed.

Lemma lstrip_all_ws (r : str) :
  forallb Py.isspace r = true -> Py.lstrip r = [].
Proof.
  intros H. rewrite <- (app_nil_r r). now rewrite lstrip_ws_app.
Qed.

Lemma lstrip_app (t r : str) :
  Py.lstrip (t ++ r)
  = match Py.lstrip t with
    | [] => Py.lstrip r
    | _ :: _ => Py.lstrip t ++ r
    end.
Proof.
  induction t as [|c t IH]; simpl; auto.
  destruct (Py.isspace c); auto.
Qed.

Lemma rstrip_app_ws (x r : str) :
  forallb Py.isspace r = true -> Py.rstrip (x ++ r) = Py.rstrip x.
Proof.
  intros H. unfold Py.rstrip. rewrite rev_app_distr, lstrip_ws_app; auto.
  now rewrite forallb_rev.
Qed.

Lemma strip_margins (l t r : str) :
  forallb Py.isspace l = true -> forallb Py.isspace r = true ->
  Py.strip (l ++ t ++ r) = Py.strip t.
Proof.
  intros Hl Hr. unfold Py.strip.
  rewrite lstrip_ws_app by assumption. rewrite lstrip_app.
  destruct (Py.lstrip t) as [|c u] eqn:E.
  - now rewrite lstrip_all_ws.
  - now apply rstrip_app_ws.
Qed.

(** X8. In revision 20251212223536 white space before and after the
    model's reply plays no part: the answer is the one for the reply
    without it. *)
Theorem reply_margins_are_ignored
  (raw_text : str) (fields : fields_t) (l t r : str) :
  forallb Py.isspace l = true -> forallb Py.isspace r = true ->
  Rev223536.process_reply raw_text fields (JStr (l ++ t ++ r))
  = Rev223536.process_reply raw_text fields (JStr t).
Proof.
  intros Hl Hr. unfold Rev223536.process_reply, Rev223536.strip_reply.
  now rewrite strip_margins.
Qed.

Lemma reply_margins_are_ignored_witness :
  Rev223536.process_reply "" tax_fields
    (JStr (lines [""; "  "] ++ js "{'taxId': 7}" ++ lines [" "; ""]))
  = Rev223536.process_reply "" tax_fields (JStr (js "{'taxId': 7}")).
Proof.
  apply reply_margins_are_ignored; reflexivity.
Defined.

(** ** A reply that is JSON but not an object *)

(** X9. When the value recovered from the reply is not an object (a list,
    a number, a text, ...), revisions 20251212223926, 20251212225215 and
    20251213020545 raise, whatever the document text; revision
    20251212223926 raises [AttributeError]. *)
Theorem non_object_reply_raises (raw_text t : str) :
  (forall d, Rev020545.recover_text t <> JDict d) ->
  Rev223926.process_reply (JStr t) = Raise AttributeError /\
  (exists e, Rev225215.process_reply raw_text (JStr t) = Raise e) /\
  (exists e, Rev020545.process_reply raw_text (JStr t) = Raise e).
Proof.
  intros Hnot.
  unfold Rev223926.process_reply, Rev223926.recover, Rev220541.recover,
    Rev225215.process_reply, Rev225215.recover, Rev020545.process_reply,
    Rev020545.recover, Rev225215.strip_vergi_no, Rev225215.fill_vergi_no,
    Rev225215.needs_fallback, Rev020545.clean_vergi_no,
    Rev020545.has_vergi_no.
  cbn [bind].
  destruct (Rev020545.recover_text t) as [| b | n | f | u | l | d] eqn:E;
    try (now elim (Hnot d)); (split; [reflexivity|]); split;
    try (eexists; reflexivity); cbn [Obj.contains bind].
  - destruct (Py.contains "vergi_no" u) eqn:Ec;
      cbn [Obj.getitem Obj.contains Obj.setitem bind]; rewrite ?Ec;
      cbn [Obj.getitem Obj.contains Obj.setitem bind negb];
      eexists; reflexivity.
  - destruct (Py.contains "vergi_no" u); cbn [Obj.getitem bind].
    + eexists; reflexivity.
    + destruct (Rev020545.fallback_value raw_text); cbn; eexists;
        reflexivity.
  - destruct (existsb _ l) eqn:Ec;
      cbn [Obj.getitem Obj.contains Obj.setitem bind]; rewrite ?Ec;
      cbn [Obj.getitem Obj.contains Obj.setitem bind negb];
      eexists; reflexivity.
  - destruct (existsb _ l); cbn [Obj.getitem bind].
    + eexists; reflexivity.
    + destruct (Rev020545.fallback_value raw_text); cbn; eexists;
        reflexivity.
Qed.

Lemma non_object_reply_raises_witness :
  exists e,
    Rev020545.process_reply "VKN 1234567890" (JStr (js "['vergi_no', 5]"))
    = Raise e.
Proof.
  apply (non_object_reply_raises "VKN 1234567890" (js "['vergi_no', 5]")).
  intros d H. discriminate H.
Defined.

(** ** A document text without digits *)

Lemma search_vergi_digit_free (s : str) :
  digit_free s = true -> forall prev, Re.search_vergi_from prev s = None.
Proof.
  unfold digit_free. induction s as [|c s IH]; simpl; auto.
  intros H prev. apply andb_true_iff in H as [Hc Hs].
  apply negb_true_iff in Hc.
  unfold Re.match_vergi_here. rewrite Hc, andb_false_r. auto.
Qed.

Lemma findall_d11_digit_free (s : str) :
  digit_free s = true -> Re.findall_d11 s = [].
Proof.
  unfold digit_free, Re.findall_d11. induction s as [|c s IH]; auto.
  intros H. simpl in H. apply andb_true_iff in H as [Hc Hs].
  apply negb_true_iff in Hc.
  rewrite findall_d11_from_0.
  replace (Re.starts_with_digits 11 (c :: s)) with false; auto.
  simpl. now rewrite Hc.
Qed.

Lemma sub_spaces_digit_free (s : str) :
  digit_free s = true -> digit_free (Re.sub_spaces s) = true.
Proof.
  unfold digit_free, Re.sub_spaces. rewrite !forallb_forall.
  intros H c Hc. apply filter_In in Hc as [Hc _]. auto.
Qed.

(** X10. When the document text holds no digit, no fallback finds
    anything: revisions 20251212222446, 20251212225215 and 20251213020545
    put [None] under ["vergi_no"] (and do not raise), and revision
    20251212223536 leaves the record as it is. *)
Theorem digit_free_text_finds_nothing (raw_text : str) :
  digit_free raw_text = true ->
  Rev222446.fallback raw_text = [(of_string "vergi_no", JNull)] /\
  Rev225215.fallback_value raw_text = JNull /\
  Rev020545.fallback_value raw_text = Ok JNull /\
  (forall fields processed,
     Rev223536.fallback raw_text fields processed = processed).
Proof.
  intros H.
  unfold Rev222446.fallback, Rev225215.fallback_value,
    Rev020545.fallback_value, Rev223536.fallback, Re.search_vergi.
  rewrite (search_vergi_digit_free raw_text H None).
  rewrite (findall_d11_digit_free _ (sub_spaces_digit_free _ H)).
  repeat split.
Qed.

Lemma digit_free_text_finds_nothing_witness :
  Rev020545.fallback_value "VERGI DAIRESI: Kadikoy" = Ok JNull.
Proof.
  apply (digit_free_text_finds_nothing "VERGI DAIRESI: Kadikoy").
  reflexivity.
Defined.

(** ** Revision 20251212225215: the fallback as text *)

Lemma dict_set_set {V : Type} (k : str) (v1 v2 : V) (d : list (str * V)) :
  Dict.set k v2 (Dict.set k v1 d) = Dict.set k v2 d.
Proof.
  induction d as [|[k' v'] d IH]; simpl.
  - now rewrite py_eqb_refl.
  - destruct (Py.eqb k k') eqn:E; simpl; rewrite E; auto.
    now rewrite IH.
Qed.

Lemma dict_set_same_value {V : Type} (k : str) (v : V) (d : list (str * V)) :
  Dict.get k d = Some v -> Dict.set k v d = d.
Proof.
  induction d as [|[k' v'] d IH]; simpl; try discriminate.
  destruct (Py.eqb k k') eqn:E.
  - intros H; inversion H; reflexivity.
  - intros H. now rewrite IH.
Qed.

(** X11. In revision 20251212225215, whenever the reply recovers to an
    object, the answer is that object with ["vergi_no"] set and nothing
    else changed, and no document text makes it raise: a truthy value
    from the model is kept (a text with the white space at its ends
    removed); otherwise the entry is the digit run found in the document
    text, as text, or [None]. *)
Theorem fallback_as_text_225215 (raw_text t : str) (d : dict) :
  Rev020545.recover_text t = JDict d ->
  Rev225215.process_reply raw_text (JStr t)
  = Ok (JDict
          (Dict.set "vergi_no"
             (match Dict.get "vergi_no" d with
              | Some (JStr s) =>
                  if truthy (JStr (Py.strip s)) then JStr (Py.strip s)
                  else Rev225215.fallback_value raw_text
              | Some v =>
                  if truthy v then v
                  else Rev225215.fallback_value raw_text
              | None => Rev225215.fallback_value raw_text
              end) d)).
Proof.
  intros Hd.
  unfold Rev225215.process_reply, Rev225215.recover, Rev020545.recover,
    Rev225215.strip_vergi_no, Rev225215.fill_vergi_no,
    Rev225215.needs_fallback.
  cbn [bind]. rewrite Hd. cbn [Obj.contains Obj.getitem bind].
  rewrite dict_has_get.
  destruct (Dict.get "vergi_no" d) as [v|] eqn:Hv; cbn [bind].
  - assert (forall w,
              (forall s, v <> JStr s) ->
              w = JDict d ->
              (needed <- (present <- Obj.contains "vergi_no" w ;;
                          (if present
                           then v0 <- Obj.getitem w "vergi_no" ;;
                                Ok (negb (truthy v0))
                           else Ok true)) ;;
               (if needed
                then Obj.setitem w "vergi_no"
                       (Rev225215.fallback_value raw_text)
                else Ok w))
              = Ok (JDict (Dict.set "vergi_no"
                             (if truthy v then v
                              else Rev225215.fallback_value raw_text) d)))
      as Hplain.
    { intros w _ ->. cbn [Obj.contains Obj.getitem bind].
      rewrite dict_has_get, Hv. cbn [bind].
      destruct (truthy v); cbn [negb Obj.setitem]; auto.
      now rewrite (dict_set_same_value _ _ _ Hv). }
    destruct v; try (apply Hplain; [discriminate | reflexivity]).
    cbn [Obj.setitem bind Obj.contains Obj.getitem].
    rewrite dict_has_get, dict_get_set_same. cbn [bind].
    destruct (truthy (JStr (Py.strip s))); cbn [negb Obj.setitem]; auto.
    now rewrite dict_set_set.
  - cbn [Obj.contains Obj.getitem bind]. rewrite dict_has_get, Hv.
    reflexivity.
Qed.

Lemma fallback_as_text_225215_witness :
  Rev225215.process_reply "VKN: 12345 67890 ."
    (JStr (js "{'ad': 'Ali', 'vergi_no': '  '}"))
  = Ok (JDict [(of_string "ad", JStr "Ali");
               (of_string "vergi_no", JStr "1234567890")]).
Proof.
  apply (fallback_as_text_225215 "VKN: 12345 67890 ."
           (js "{'ad': 'Ali', 'vergi_no': '  '}")
           [(of_string "ad", JStr "Ali"); (of_string "vergi_no", JStr "  ")]).
  reflexivity.
Defined.

(** ** Decoded objects have each key once *)

Lemma object_members_nodup (scan : str -> outcome (json * str)) (n : nat) :
  forall acc s v r,
    NoDup (Dict.keys acc) ->
    Json.object_members scan n acc s = Done (v, r) ->
    exists d, v = JDict d /\ NoDup (Dict.keys d).
Proof.
  induction n as [|n IH]; intros acc s v r Hnd H; simpl in H;
    try discriminate.
  destruct (Json.scanstring s) as [[key r1]|]; try discriminate.
  destruct (Json.skip_ws r1) as [|colon r2]; try discriminate.
  destruct (Ascii.eqb colon ":"); try discriminate.
  destruct (scan (Json.skip_ws r2)) as [[v1 r3]| |]; try discriminate.
  destruct (Json.skip_ws r3) as [|c r4]; try discriminate.
  pose proof (dict_nodup_set acc key v1 Hnd) as Hnd'.
  destruct (Ascii.eqb c "}").
  { inversion H; subst. eauto. }
  destruct (Ascii.eqb c ","); try discriminate.
  destruct (Json.skip_ws r4) as [|q r5]; try discriminate.
  destruct (Ascii.eqb q dquote); try discriminate.
  eapply IH; eauto.
Qed.

Lemma array_elements_list (scan : str -> outcome (json * str)) (n : nat) :
  forall acc s v r,
    Json.array_elements scan n acc s = Done (v, r) -> exists l, v = JList l.
Proof.
  induction n as [|n IH]; intros acc s v r H; simpl in H; try discriminate.
  destruct (scan s) as [[v1 r1]| |]; try discriminate.
  destruct (Json.skip_ws r1) as [|c r2]; try discriminate.
  destruct (Ascii.eqb c "]").
  { inversion H; subst. eauto. }
  destruct (Ascii.eqb c ","); try discriminate.
  eapply IH; eauto.
Qed.

Lemma scan_atom_scalar (s r : str) (d : dict) :
  Json.scan_atom s <> Done (JDict d, r).
Proof.
  unfold Json.scan_atom, Json.scan_keyword, Json.scan_constant,
    Json.scan_number.
  destruct (Py.strip_prefix "null" s); try discriminate.
  destruct (Py.strip_prefix "true" s); try discriminate.
  destruct (Py.strip_prefix "false" s); try discriminate.
  destruct (Json.scan_int_part s) as [[[neg ip] r1]|].
  - destruct (Json.scan_frac r1) as [frac r2].
    destruct (Json.scan_exp r2) as [ex r3].
    destruct frac, ex; discriminate.
  - destruct (Py.strip_prefix "NaN" s); try discriminate.
    destruct (Py.strip_prefix "Infinity" s); try discriminate.
    destruct (Py.strip_prefix "-Infinity" s); discriminate.
Qed.

Lemma scan_once_dict_nodup (f : nat) (s r : str) (d : dict) :
  Json.scan_once f s = Done (JDict d, r) -> NoDup (Dict.keys d).
Proof.
  destruct f as [|f]; simpl; try discriminate.
  destruct s as [|c t]; try discriminate.
  destruct (Ascii.eqb c dquote).
  { destruct (Json.scanstring t) as [[k r1]|]; discriminate. }
  destruct (Ascii.eqb c "{").
  { unfold Json.JSONObject.
    destruct (Json.skip_ws t) as [|c' t']; try discriminate.
    destruct (Ascii.eqb c' "}").
    { intros H; inversion H; subst. constructor. }
    destruct (Ascii.eqb c' dquote); try discriminate.
    intros H. apply object_members_nodup in H as (d' & Hd & Hnd).
    - inversion Hd; subst; auto.
    - constructor. }
  destruct (Ascii.eqb c "[").
  { unfold Json.JSONArray. intros H.
    assert (exists l, JDict d = JList l) as [l Hl]; [|discriminate].
    destruct (Json.skip_ws t) as [|c' t'].
    - now apply array_elements_list in H.
    - destruct (Ascii.eqb c' "]").
      + inversion H.
      + now apply array_elements_list in H. }
  intros H. now apply scan_atom_scalar in H.
Qed.

Lemma loads_dict_nodup (s : str) (d : dict) :
  Json.loads s = Some (JDict d) -> NoDup (Dict.keys d).
Proof.
  unfold Json.loads, Json.decode.
  destruct (Json.scan_once _ _) as [[v r]| |] eqn:E; try discriminate.
  destruct (Json.skip_ws r); try discriminate.
  intros H; inversion H; subst. now apply scan_once_dict_nodup in E.
Qed.

Lemma recover_text_nodup (t : str) (d : dict) :
  Rev020545.recover_text t = JDict d -> NoDup (Dict.keys d).
Proof.
  unfold Rev020545.recover_text.
  destruct (Json.loads t) as [v|] eqn:E.
  { intros ->. now apply loads_dict_nodup in E. }
  destruct (Re.search_braces t) as [block|].
  - destruct (Json.loads block) as [v|] eqn:E'.
    + intros ->. now apply loads_dict_nodup in E'.
    + intros H; inversion H; constructor.
  - intros H; inversion H; constructor.
Qed.

(** ** Revision 20251212223926: every text value is normalised *)

Lemma dict_get_absent {V : Type} (k : str) (d : list (str * V)) :
  ~ In k (Dict.keys d) -> Dict.get k d = None.
Proof.
  intros H. destruct (Dict.get k d) eqn:E; auto.
  elim H. apply dict_has_in. unfold Dict.has. now rewrite E.
Qed.

Lemma normalize_items_spec (items : dict) :
  forall result,
    NoDup (Dict.keys items) ->
    (forall k, In k (Dict.keys items) -> In k (Dict.keys result)) ->
    Dict.keys (Rev223926.normalize_items items result) = Dict.keys result /\
    forall k,
      Dict.get k (Rev223926.normalize_items items result)
      = match Dict.get k items with
        | Some (JStr s) => Some (Rev223926.clean_text s)
        | _ => Dict.get k result
        end.
Proof.
  induction items as [|[key value] rest IH]; intros result Hnd Hsub.
  - simpl. auto.
  - inversion Hnd as [|? ? Hni Hnd']; subst.
    pose (result' := match value with
                     | JStr s => Dict.set key (Rev223926.clean_text s) result
                     | _ => result
                     end).
    change (Rev223926.normalize_items ((key, value) :: rest) result)
      with (Rev223926.normalize_items rest result').
    assert (In key (Dict.keys result)) as Hkey.
    { apply Hsub. simpl. auto. }
    assert (Dict.keys result' = Dict.keys result) as Hkeys.
    { unfold result'. destruct value; auto.
      rewrite dict_keys_set.
      apply dict_has_in in Hkey. now rewrite Hkey. }
    assert (forall k, k <> key -> Dict.get k result' = Dict.get k result)
      as Hother.
    { intros k Hk. unfold result'. destruct value; auto.
      now apply dict_get_set_other. }
    destruct (IH result' Hnd') as [IHk IHg].
    { intros k Hk. rewrite Hkeys. apply Hsub. simpl. auto. }
    split; [now rewrite IHk|].
    intros k. rewrite IHg. cbn [Dict.get].
    destruct (Py.eqb k key) eqn:E.
    + apply py_eqb_eq in E; subst k.
      rewrite (dict_get_absent key rest Hni).
      unfold result'. destruct value; auto. apply dict_get_set_same.
    + apply py_eqb_neq in E. now rewrite (Hother k E).
Qed.

Lemma remove_spaces_lacks (s : str) :
  lacks " "%char (Py.remove_spaces s) = true.
Proof.
  unfold lacks, Py.remove_spaces. apply forallb_forall.
  intros c Hc. now apply filter_In in Hc as [_ Hc].
Qed.

(** X12. In revision 20251212223926, whenever the reply recovers to an
    object, the answer has the same keys; every text value has had the
    white space at its ends and every space removed and has become [None]
    when nothing was left, so no text in the answer is empty or holds a
    space; every other value is returned as decoded. *)
Theorem text_values_are_normalised (t : str) (d : dict) :
  Rev020545.recover_text t = JDict d ->
  exists d',
    Rev223926.process_reply (JStr t) = Ok (JDict d') /\
    Dict.keys d' = Dict.keys d /\
    (forall k v, Dict.get k d = Some v ->
       Dict.get k d'
       = Some (match v with
               | JStr s => Rev223926.clean_text s
               | _ => v
               end)) /\
    (forall k s, Dict.get k d' = Some (JStr s) ->
       s <> [] /\ lacks " "%char s = true).
Proof.
  intros Hd. pose proof (recover_text_nodup t d Hd) as Hnd.
  destruct (normalize_items_spec d d Hnd (fun k H => H)) as [Hkeys Hget].
  exists (Rev223926.normalize_items d d).
  unfold Rev223926.process_reply, Rev223926.recover, Rev220541.recover.
  cbn [bind]. rewrite Hd. cbn [Rev223926.normalize].
  repeat split; auto.
  - intros k v Hv. rewrite Hget, Hv. now destruct v.
  - rewrite Hget in H.
    destruct (Dict.get k d) as [[]|] eqn:E; try discriminate;
      try (inversion H; fail).
    unfold Rev223926.clean_text in H.
    destruct (Py.remove_spaces (Py.strip s0)); inversion H. discriminate.
  - rewrite Hget in H.
    destruct (Dict.get k d) as [[]|] eqn:E; try discriminate;
      try (inversion H; fail).
    unfold Rev223926.clean_text in H.
    destruct (Py.remove_spaces (Py.strip s0)) eqn:Er; inversion H.
    rewrite <- Er. apply remove_spaces_lacks.
Qed.

Lemma text_values_are_normalised_witness :
  exists d',
    Rev223926.process_reply (JStr (js "{'no': ' 12 34 ', 'ad': '  ', 'n': 5}"))
    = Ok (JDict d') /\
    Dict.keys d' = [of_string "no"; of_string "ad"; of_string "n"] /\
    (forall k v,
       Dict.get k [(of_string "no", JStr " 12 34 ");
                   (of_string "ad", JStr "  "); (of_string "n", JInt 5)]
       = Some v ->
       Dict.get k d'
       = Some (match v with
               | JStr s => Rev223926.clean_text s
               | _ => v
               end)) /\
    (forall k s, Dict.get k d' = Some (JStr s) ->
       s <> [] /\ lacks " "%char s = true).
Proof.
  apply (text_values_are_normalised
           (js "{'no': ' 12 34 ', 'ad': '  ', 'n': 5}")
           [(of_string "no", JStr " 12 34 ");
            (of_string "ad", JStr "  "); (of_string "n", JInt 5)]).
  reflexivity.
Defined.

(** ** Revision 20251212222446: the reply or the fallback *)




(** ** The description of the fields decodes to the fields *)

Lemma scan_escape (c : ascii) (out rest : str) :
  Json.scan_chars Json.SNormal None out (Encoder.escape c ++ rest)
  = Json.scan_chars Json.SNormal None (c :: out) rest.
Proof.
  destruct c as [[] [] [] [] [] [] [] []]; reflexivity.
Qed.

Lemma scan_chars_encoded (s : str) :
  forall out rest,
    Json.scan_chars Json.SNormal None out
      (flat_map Encoder.escape s ++ dquote :: rest)
    = Some (rev out ++ s, rest).
Proof.
  induction s as [|c s IH]; intros out rest.
  - simpl. now rewrite app_nil_r.
  - simpl flat_map. rewrite <- app_assoc, scan_escape, IH.
    simpl. now rewrite <- app_assoc.
Qed.

Lemma scanstring_encoded (s rest : str) :
  Json.scanstring (flat_map Encoder.escape s ++ dquote :: rest)
  = Some (s, rest).
Proof. apply (scan_chars_encoded s [] rest). Qed.

Lemma scan_once_string (f : nat) (s rest : str) :
  Json.scan_once (S f) (Encoder.encode_basestring s ++ rest)
  = Done (JStr s, rest).
Proof.
  unfold Encoder.encode_basestring.
  rewrite <- app_comm_cons, <- app_assoc. simpl app.
  cbn [Json.scan_once]. rewrite Ascii.eqb_refl.
  now rewrite scanstring_encoded.
Qed.

Lemma skip_ws_spaces (n : nat) (x : str) :
  Json.skip_ws (repeat " "%char n ++ x) = Json.skip_ws x.
Proof. induction n as [|n IH]; simpl; auto. Qed.

Lemma skip_ws_newline_indent (level : nat) (c : ascii) (x : str) :
  Json.isws c = false ->
  Json.skip_ws (Encoder.newline_indent level ++ c :: x) = c :: x.
Proof.
  intros Hc. unfold Encoder.newline_indent.
  rewrite <- app_comm_cons. cbn [Json.skip_ws].
  change (Json.isws "010") with true. cbn iota.
  rewrite skip_ws_spaces. simpl. now rewrite Hc.
Qed.

Lemma dict_set_fresh {V : Type} (k : str) (v : V) (d : list (str * V)) :
  ~ In k (Dict.keys d) -> Dict.set k v d = d ++ [(k, v)].
Proof.
  induction d as [|[k' v'] d IH]; simpl; auto.
  intros H. destruct (Py.eqb k k') eqn:E.
  - apply py_eqb_eq in E. subst. tauto.
  - rewrite IH; auto.
Qed.

Section EncodeDict.
Context {V : Type}.
Variable encode_value : V -> str.
Variable value_json : V -> json.
Variable level : nat.

Lemma join_members (d : list (str * V)) (rest : str) :
  d <> [] ->
  Encoder.join (","%char :: Encoder.newline_indent (S level))
    (map (fun kv => Encoder.encode_basestring (fst kv) ++ ":"%char
                    :: " "%char :: encode_value (snd kv)) d)
  ++ Encoder.newline_indent level ++ "}"%char :: rest
  = dquote :: Encoder.members_text encode_value level d rest.
Proof.
  induction d as [|kv d IH]; [congruence|]. intros _.
  destruct d as [|kv' d'].
  - cbn [map Encoder.join Encoder.members_text].
    unfold Encoder.encode_basestring.
    cbn [app]. repeat (rewrite <- app_assoc; cbn [app]). reflexivity.
  - change (Encoder.join ?sep (map ?f (kv :: kv' :: d')))
      with (f kv ++ sep ++ Encoder.join sep (map f (kv' :: d'))).
    rewrite <- !app_assoc. rewrite IH by discriminate.
    cbn [Encoder.members_text]. unfold Encoder.encode_basestring.
    cbn [app]. repeat (rewrite <- app_assoc; cbn [app]). reflexivity.
Qed.

Lemma encode_dict_text (d : list (str * V)) (rest : str) :
  d <> [] ->
  Encoder.encode_dict encode_value level d ++ rest
  = "{"%char :: Encoder.newline_indent (S level)
    ++ dquote :: Encoder.members_text encode_value level d rest.
Proof.
  intros Hd. destruct d as [|kv d]; [congruence|].
  unfold Encoder.encode_dict.
  rewrite <- app_comm_cons, <- !app_assoc. f_equal. f_equal.
  change ([ "}"%char ] ++ rest) with ("}"%char :: rest).
  now apply join_members.
Qed.

Variable scan : str -> outcome (json * str).
Hypothesis value_head :
  forall v, head_is (fun c => negb (Json.isws c)) (encode_value v) = true.

Lemma skip_ws_value (v : V) (x : str) :
  Json.skip_ws (" "%char :: encode_value v ++ x) = encode_value v ++ x.
Proof.
  specialize (value_head v). destruct (encode_value v) as [|c t];
    try discriminate.
  simpl in value_head. apply negb_true_iff in value_head.
  simpl. now rewrite value_head.
Qed.

Lemma object_members_encoded (d : list (str * V)) :
  forall acc n rest,
    d <> [] -> List.length d <= n ->
    (forall kv, In kv d ->
       forall r, scan (encode_value (snd kv) ++ r)
                 = Done (value_json (snd kv), r)) ->
    Json.object_members scan n acc
      (Encoder.members_text encode_value level d rest)
    = Done (JDict (fold_left (fun a kv => Dict.set (fst kv)
                                            (value_json (snd kv)) a)
                     d acc), rest).
Proof.
  induction d as [|kv d IH]; intros acc n rest Hne Hn Hscan;
    [congruence|].
  destruct n as [|n]; [simpl in Hn; lia|].
  cbn [Encoder.members_text Json.object_members].
  rewrite scanstring_encoded.
  change (Json.skip_ws (":"%char :: ?x)) with (":"%char :: x).
  cbn iota beta. change (Ascii.eqb ":" ":") with true. cbn iota.
  rewrite skip_ws_value.
  rewrite (Hscan kv (or_introl eq_refl)). cbn iota beta.
  destruct d as [|kv' d'].
  - rewrite skip_ws_newline_indent by reflexivity. cbn iota beta.
    change (Ascii.eqb "}" "}") with true. cbn iota. reflexivity.
  - change (Json.skip_ws (","%char :: ?x)) with (","%char :: x).
    cbn iota beta.
    change (Ascii.eqb "," "}") with false.
    change (Ascii.eqb "," ",") with true. cbn iota.
    rewrite skip_ws_newline_indent by reflexivity. cbn iota beta.
    change (Ascii.eqb dquote dquote) with true. cbn iota.
    rewrite IH.
    + reflexivity.
    + discriminate.
    + simpl in Hn. simpl. lia.
    + intros kv0 H0. apply Hscan. now right.
Qed.

Lemma fold_set_fresh (d : list (str * V)) :
  forall acc,
    NoDup (Dict.keys acc ++ map fst d) ->
    fold_left (fun a kv => Dict.set (fst kv) (value_json (snd kv)) a) d acc
    = acc ++ map (Encoder.item_json value_json) d.
Proof.
  induction d as [|kv d IH]; intros acc Hnd; simpl.
  - now rewrite app_nil_r.
  - assert (~ In (fst kv) (Dict.keys acc)) as Hfresh.
    { apply NoDup_remove_2 in Hnd. intros H. apply Hnd.
      apply in_or_app. now left. }
    rewrite dict_set_fresh by assumption.
    rewrite IH.
    + rewrite <- app_assoc. reflexivity.
    + unfold Dict.keys. rewrite map_app. simpl.
      rewrite <- app_assoc. exact Hnd.
Qed.

Lemma JSONObject_encoded (d : list (str * V)) (n : nat) (rest : str) :
  List.length d <= n ->
  NoDup (map fst d) ->
  (forall kv, In kv d ->
     forall r, scan (encode_value (snd kv) ++ r)
               = Done (value_json (snd kv), r)) ->
  exists body,
    Encoder.encode_dict encode_value level d ++ rest = "{"%char :: body /\
    Json.JSONObject scan n body = Done (JDict (map (Encoder.item_json value_json) d), rest).
Proof.
  intros Hn Hnd Hscan. destruct d as [|kv d].
  - exists ("}"%char :: rest). split; reflexivity.
  - exists (Encoder.newline_indent (S level)
            ++ dquote
               :: Encoder.members_text encode_value level (kv :: d) rest).
    split; [now apply encode_dict_text|].
    unfold Json.JSONObject.
    rewrite skip_ws_newline_indent by reflexivity. cbn iota beta.
    change (Ascii.eqb dquote "}") with false.
    change (Ascii.eqb dquote dquote) with true. cbn iota.
    rewrite object_members_encoded; auto; try discriminate.
    now rewrite fold_set_fresh.
Qed.
End EncodeDict.

Lemma join_length_member (sep p : str) (parts : list str) :
  In p parts -> List.length p <= List.length (Encoder.join sep parts).
Proof.
  induction parts as [|q parts IH]; simpl; [tauto|].
  intros [-> | H].
  - destruct parts; auto. rewrite !length_app. lia.
  - specialize (IH H). destruct parts as [|q' parts']; [destruct H|].
    rewrite !length_app. lia.
Qed.

Lemma join_length_parts (sep : str) (parts : list str) :
  (forall p, In p parts -> 1 <= List.length p) ->
  List.length parts <= List.length (Encoder.join sep parts).
Proof.
  induction parts as [|q parts IH]; simpl; auto.
  intros H. assert (1 <= List.length q) as Hq by auto.
  destruct parts as [|q' parts'].
  - simpl. lia.
  - rewrite !length_app.
    assert (List.length (q' :: parts')
            <= List.length (Encoder.join sep (q' :: parts'))) by auto.
    simpl in *. lia.
Qed.

Section EncodeDictLength.
Context {V : Type}.
Variable encode_value : V -> str.
Variable level : nat.

Lemma encode_dict_length (d : list (str * V)) :
  List.length d < List.length (Encoder.encode_dict encode_value level d).
Proof.
  destruct d as [|kv d]; [simpl; lia|].
  unfold Encoder.encode_dict.
  cbn [List.length]. rewrite !length_app.
  pose proof (join_length_parts
    (","%char :: Encoder.newline_indent (S level))
    (map (fun kv => Encoder.encode_basestring (fst kv) ++ ":"%char
                    :: " "%char :: encode_value (snd kv)) (kv :: d))) as H.
  rewrite length_map in H. cbn [List.length] in H.
  assert (S (List.length d)
          <= List.length
               (Encoder.join (","%char :: Encoder.newline_indent (S level))
                  (map (fun kv => Encoder.encode_basestring (fst kv)
                                  ++ ":"%char :: " "%char
                                  :: encode_value (snd kv)) (kv :: d)))).
  { apply H. intros p Hp. apply in_map_iff in Hp as (kv0 & <- & _).
    unfold Encoder.encode_basestring. simpl. lia. }
  lia.
Qed.

Lemma encode_dict_length_value (d : list (str * V)) (kv : str * V) :
  In kv d ->
  List.length (encode_value (snd kv))
  < List.length (Encoder.encode_dict encode_value level d).
Proof.
  intros Hin. destruct d as [|kv0 d]; [destruct Hin|].
  unfold Encoder.encode_dict.
  cbn [List.length]. rewrite !length_app.
  pose proof (join_length_member
    (","%char :: Encoder.newline_indent (S level))
    (Encoder.encode_basestring (fst kv) ++ ":"%char :: " "%char
     :: encode_value (snd kv))
    (map (fun kv => Encoder.encode_basestring (fst kv) ++ ":"%char
                    :: " "%char :: encode_value (snd kv)) (kv0 :: d))) as H.
  assert (List.length (Encoder.encode_basestring (fst kv) ++ ":"%char
                       :: " "%char :: encode_value (snd kv))
          <= List.length
               (Encoder.join (","%char :: Encoder.newline_indent (S level))
                  (map (fun kv => Encoder.encode_basestring (fst kv)
                                  ++ ":"%char :: " "%char
                                  :: encode_value (snd kv)) (kv0 :: d))))
    as Hle.
  { apply H. apply in_map_iff. eauto. }
  rewrite length_app in Hle. cbn [List.length] in Hle. lia.
Qed.
End EncodeDictLength.

Lemma scan_once_conf (f : nat) (conf : list (str * str)) (rest : str) :
  List.length conf < f ->
  NoDup (map fst conf) ->
  Json.scan_once f (Encoder.encode_dict Encoder.encode_basestring 1 conf
                    ++ rest)
  = Done (JDict (map (Encoder.item_json JStr) conf), rest).
Proof.
  intros Hf Hnd. destruct f as [|f]; [lia|].
  destruct (JSONObject_encoded Encoder.encode_basestring JStr 1
              (Json.scan_once f) (fun v => eq_refl) conf f rest)
    as (body & Htext & Hobj); auto; try lia.
  { intros kv Hin r. destruct f as [|f].
    - destruct conf; [destruct Hin | simpl in Hf; lia].
    - apply scan_once_string. }
  rewrite Htext. cbn [Json.scan_once].
  change (Ascii.eqb "{" dquote) with false.
  change (Ascii.eqb "{" "{") with true. cbn iota. exact Hobj.
Qed.

Lemma encode_dict_head {V : Type} (enc : V -> str) (level : nat)
  (d : list (str * V)) :
  head_is (fun c => negb (Json.isws c)) (Encoder.encode_dict enc level d)
  = true.
Proof. destruct d; reflexivity. Qed.

Lemma scan_once_fields (f : nat) (fields : fields_t) (rest : str) :
  List.length fields <= f ->
  (forall kc, In kc fields ->
     List.length (snd kc) < f /\ NoDup (map fst (snd kc))) ->
  NoDup (map fst fields) ->
  Json.scan_once (S f) (Encoder.fields_description fields ++ rest)
  = Done (Encoder.fields_value fields, rest).
Proof.
  intros Hf Hconf Hnd.
  destruct (JSONObject_encoded
              (Encoder.encode_dict Encoder.encode_basestring 1)
              (fun conf => JDict (map (Encoder.item_json JStr) conf)) 0
              (Json.scan_once f)
              (encode_dict_head Encoder.encode_basestring 1)
              fields f rest)
    as (body & Htext & Hobj); auto.
  { intros kc Hin r. destruct (Hconf kc Hin). now apply scan_once_conf. }
  unfold Encoder.fields_description. rewrite Htext. cbn [Json.scan_once].
  change (Ascii.eqb "{" dquote) with false.
  change (Ascii.eqb "{" "{") with true. cbn iota. exact Hobj.
Qed.

(** X14. The description of the declared fields that every revision puts
    into the prompt ([json.dumps] with [ensure_ascii=False] and
    [indent=2]) is valid JSON, and decoding it gives back the declared
    fields: every key, type and name, including quotes, backslashes and
    control characters in them. *)
Theorem fields_description_round_trip (fields : fields_t) :
  NoDup (map fst fields) ->
  (forall kc, In kc fields -> NoDup (map fst (snd kc))) ->
  Json.loads (Encoder.fields_description fields)
  = Some (Encoder.fields_value fields).
Proof.
  intros Hnd Hconf.
  assert (Json.skip_ws (Encoder.fields_description fields)
          = Encoder.fields_description fields) as Hskip.
  { unfold Encoder.fields_description. destruct fields; reflexivity. }
  unfold Json.loads, Json.decode. rewrite Hskip.
  rewrite <- (app_nil_r (Encoder.fields_description fields)) at 2.
  rewrite scan_once_fields; auto.
  - pose proof (encode_dict_length
                  (Encoder.encode_dict Encoder.encode_basestring 1) 0 fields).
    unfold Encoder.fields_description. lia.
  - intros kc Hin. split; auto.
    pose proof (encode_dict_length Encoder.encode_basestring 1 (snd kc)).
    pose proof (encode_dict_length_value
                  (Encoder.encode_dict Encoder.encode_basestring 1) 0
                  fields kc Hin).
    unfold Encoder.fields_description. lia.
Qed.

Lemma fields_description_round_trip_witness :
  Json.loads (Encoder.fields_description tax_fields)
  = Some (Encoder.fields_value tax_fields).
Proof.
  apply fields_description_round_trip.
  - repeat constructor; simpl; tauto.
  - intros kc [<- | []]. simpl.
    repeat constructor; simpl; intuition discriminate.
Defined.

(** ** A response without a reply *)

(** X15. When the response body is a JSON object without the key
    ["response"], revisions 20251212220541 and 20251212223926 answer
    with the empty mapping, whatever the document text and the declared
    fields: the default reply ["{}"] is decoded like any other. *)
Theorem missing_reply_gives_empty_mapping
  (status : nat) (body raw_text : str) (fields : fields_t) (env : dict) :
  Json.loads body = Some (JDict env) ->
  Dict.get "response" env = None ->
  Rev220541.parse_fields (HttpResponse status body) raw_text fields
  = Return (JDict []) /\
  Rev223926.parse_fields (HttpResponse status body) raw_text fields
  = Return (JDict []).
Proof.
  intros Hbody Hmiss.
  unfold Rev220541.parse_fields, Rev223926.parse_fields, response_json, post,
    Rev220541.extract_reply, Rev223926.extract_reply, Obj.get,
    Dict.get_default.
  cbn [bind snd]. rewrite Hbody. cbn [bind]. rewrite Hmiss.
  split; reflexivity.
Qed.

Lemma missing_reply_gives_empty_mapping_witness :
  Rev223926.parse_fields
    (HttpResponse 404 (js "{'error': 'model not found'}"))
    "VKN 1234567890" tax_fields
  = Return (JDict []).
Proof.
  apply (missing_reply_gives_empty_mapping 404
           (js "{'error': 'model not found'}") "VKN 1234567890" tax_fields
           [(of_string "error", JStr "model not found")]);
    reflexivity.
Defined.

(** ** Digits and spaces: where the revisions agree *)





